(** * The environment upsert workflow of mu (workflows/environment_upsert.go)

    A shallow embedding of the five stage closures built by
    [NewEnvironmentUpserter] and of the pipeline that runs them.  Go's
    [map[string]string] is a [gmap string string]; the two maps shared by the
    closures, the workflow object and the configuration live in one explicit
    state that every stage threads; the collaborators behind the
    [common.StackManager] and [common.RolesetManager] interfaces are state
    transformers over an abstract world, and every call made to them is
    appended, with its arguments and its answer, to a call log. *)

From Stdlib Require Import ZArith Ascii.
From stdpp Require Import base gmap strings list pretty.

Local Open Scope Z_scope.

(** ** Go's [strings], [strconv] and [fmt] as used by the workflow *)

Module GoStrings.

(** [strings.HasSuffix]: [len(s) >= len(suffix) &&
    s[len(s)-len(suffix):] == suffix]. *)
Definition HasSuffix (s suffix : string) : bool :=
  (String.length suffix <=? String.length s)%nat
  && String.eqb
       (String.substring (String.length s - String.length suffix)
                         (String.length suffix) s)
       suffix.

(** [strings.Join(elems, sep)]. *)
Fixpoint Join (elems : list string) (sep : string) : string :=
  match elems with
  | [] => ""
  | [e] => e
  | e :: rest => e +:+ sep +:+ Join rest sep
  end.


(** [strings.Contains], as a proposition: [sub] occurs inside [s]. *)
Definition Contains (s sub : string) : Prop :=
  ∃ before after : string, s = before +:+ sub +:+ after.

(** [strconv.Itoa], which is also how [fmt] prints an [int] under [%v]. *)
Definition Itoa (n : Z) : string := pretty n.

(** [strconv.FormatBool]. *)
Definition FormatBool (b : bool) : string :=
  if b then "true" else "false".

(** The test [x != ""] (and its negation) on a Go string. *)
Definition nonEmpty (s : string) : bool := negb (String.eqb s "").

(** Byte-wise folding of the ASCII letters, an instance of
    [strings.EqualFold] good for names written in ASCII. *)
Definition lowerAscii (c : ascii) : ascii :=
  let n := nat_of_ascii c in
  if ((65 <=? n) && (n <=? 90))%nat then ascii_of_nat (n + 32) else c.

Fixpoint EqualFoldAscii (s t : string) : bool :=
  match s, t with
  | EmptyString, EmptyString => true
  | String a s', String b t' =>
      Ascii.eqb (lowerAscii a) (lowerAscii b) && EqualFoldAscii s' t'
  | _, _ => false
  end.

End GoStrings.
Import GoStrings.

(** Reading a Go map: a missing key reads as the zero value [""]. *)
Definition mapGet (m : gmap string string) (k : string) : string :=
  default "" (m !! k).

(** ** Errors *)

(** An [error] value is either an ordinary error or one of the warning class;
    a nil error is [None] of [option error]. *)
Inductive error : Type :=
| Error (msg : string)
| Warning (msg : string).

Definition message (e : error) : string :=
  match e with Error m | Warning m => m end.

Definition isWarning (e : error) : bool :=
  match e with Warning _ => true | Error _ => false end.

(** [fmt.Errorf] once its format has been expanded. *)
Definition Errorf (msg : string) : error := Error msg.

(** Modelled from the spec: [common.Warningf] is declared outside the files
    at hand.  The spec calls its result a Warning-class error, distinct from a
    hard failure, carrying the formatted message. *)
Definition Warningf (msg : string) : error := Warning msg.

(** ** Stack outcomes and their classification *)

(** [common.Stack], as far as the workflow reads it. *)
Record Stack : Type := mkStack {
  Status : string;
  StatusReason : string;
  Outputs : gmap string string
}.

(** The test made on every awaited stack (lines 130-135, 225-230 and 331-336):
    [nil] is an error naming the stack, a status that ends in
    [ROLLBACK_COMPLETE] or does not end in [_COMPLETE] is an error carrying
    status and reason. *)
Definition checkFinalStatus (stackName : string) (stack : option Stack)
  : option error :=
  match stack with
  | None => Some (Errorf ("Unable to create stack " +:+ stackName))
  | Some stack =>
      if HasSuffix (Status stack) "ROLLBACK_COMPLETE"
         || negb (HasSuffix (Status stack) "_COMPLETE")
      then Some (Errorf ("Ended in failed status " +:+ Status stack
                           +:+ " " +:+ StatusReason stack))
      else None
  end.

(** ** Configuration *)

(** [common.Environment], field by field as the workflow reads it; the nested
    structs [Cluster], [Loadbalancer], [Discovery] and [VpcTarget] are
    flattened, [environment.Cluster.KeyName] being [Cluster_KeyName
    environment].  [EnvProvider], [InstanceTenancy] and [StackType] are string
    types; Go's [int] fields are integers. *)
Record Environment : Type := mkEnvironment {
  Name : string;
  Provider : string;
  Cluster_InstanceTenancy : string;
  Cluster_SSHAllow : string;
  Cluster_KeyName : string;
  Cluster_InstanceType : string;
  Cluster_ExtraUserData : string;
  Cluster_ImageID : string;
  Cluster_ImageOsType : string;
  Cluster_DesiredCapacity : Z;
  Cluster_MinSize : Z;
  Cluster_MaxSize : Z;
  Cluster_TargetCPUReservation : Z;
  Cluster_TargetMemoryReservation : Z;
  Cluster_HTTPProxy : string;
  Loadbalancer_Certificate : string;
  Loadbalancer_HostedZone : string;
  Loadbalancer_Name : string;
  Loadbalancer_Internal : bool;
  Discovery_Provider : string;
  Discovery_Name : string;
  VpcTarget_Environment : string;
  VpcTarget_Namespace : string;
  VpcTarget_VpcID : string;
  VpcTarget_ElbSubnetIds : list string;
  VpcTarget_InstanceSubnetIds : list string
}.

(** The assignment [e.Provider = p]. *)
Definition setProvider (p : string) (e : Environment) : Environment :=
  mkEnvironment (Name e) p
    (Cluster_InstanceTenancy e) (Cluster_SSHAllow e) (Cluster_KeyName e)
    (Cluster_InstanceType e) (Cluster_ExtraUserData e) (Cluster_ImageID e)
    (Cluster_ImageOsType e) (Cluster_DesiredCapacity e) (Cluster_MinSize e)
    (Cluster_MaxSize e) (Cluster_TargetCPUReservation e)
    (Cluster_TargetMemoryReservation e) (Cluster_HTTPProxy e)
    (Loadbalancer_Certificate e) (Loadbalancer_HostedZone e)
    (Loadbalancer_Name e) (Loadbalancer_Internal e)
    (Discovery_Provider e) (Discovery_Name e)
    (VpcTarget_Environment e) (VpcTarget_Namespace e) (VpcTarget_VpcID e)
    (VpcTarget_ElbSubnetIds e) (VpcTarget_InstanceSubnetIds e).

(** The zero value of the struct, what a declared variable holds before its
    first assignment. *)
Definition zeroEnvironment : Environment :=
  mkEnvironment "" "" "" "" "" "" "" "" "" 0 0 0 0 0 "" "" "" "" false
                "" "" "" "" "" [] [].

(** [common.Config] and [common.Context], as far as [NewEnvironmentUpserter]
    reads them. *)
Record Config : Type := mkConfig {
  Config_Environments : list Environment;
  Config_Namespace : string;
  Repo_Revision : string;
  Repo_Slug : string
}.

(** [EnvironmentTags], the argument of [createTagMap]. *)
Record EnvironmentTags : Type := mkEnvironmentTags {
  Tag_Environment : string;
  Tag_Type : string;
  Tag_Provider : string;
  Tag_Revision : string;
  Tag_Repo : string
}.

Definition ecsImagePattern : string := "amzn-ami-*-amazon-ecs-optimized".
Definition ec2ImagePattern : string := "amzn-ami-hvm-*-x86_64-gp2".

(** ** Memory *)

(** A [*Environment] points either at an element of the configuration's
    [Environments] slice or at a variable that outlived its function (the
    loop variable of [environmentFinder], whose address is taken). *)
Inductive ptr : Type :=
| ElemPtr (i : nat)
| CellPtr (c : nat).

(** [environmentWorkflow], as far as these stages use it; a nil
    [environment] is [None]. *)
Record Workflow : Type := mkWorkflow {
  environment : option ptr;
  codeRevision : string;
  repoName : string;
  cloudFormationRoleArn : string
}.

(** ** Calls to the collaborators *)

(** One entry of the call log: the method, its arguments and its answer.
    [UpsertStack] is handed the environment pointer; the log keeps the struct
    it points to at the time of the call. *)
Inductive Call : Type :=
| CallFindLatestImageID (pattern : string) (id : string) (err : option error)
| CallCountAZs (count : Z) (err : option error)
| CallUpsertStack (stackName templateName : string) (env : Environment)
    (parameters tags : gmap string string) (roleArn : string)
    (err : option error)
| CallAwaitFinalStatus (stackName : string) (stack : option Stack)
| CallUpsertCommonRoleset (err : option error)
| CallGetCommonRoleset (roleset : gmap string string) (err : option error)
| CallUpsertEnvironmentRoleset (envName : string) (err : option error)
| CallGetEnvironmentRoleset (envName : string) (roleset : gmap string string)
    (err : option error).

Definition isUpsertStack (c : Call) : bool :=
  match c with CallUpsertStack _ _ _ _ _ _ _ => true | _ => false end.

Definition isAwaitFinalStatus (c : Call) : bool :=
  match c with CallAwaitFinalStatus _ _ => true | _ => false end.

(** ** Stages as state transformers *)

(** What running a piece of a stage gives: a value to go on with, a non-nil
    error returned to the caller, or a nil-pointer panic. *)
Inductive result (A : Type) : Type :=
| Ok (a : A)
| Fail (err : error)
| Panic.
Arguments Ok {A} a.
Arguments Fail {A} err.
Arguments Panic {A}.

Section Workflow.

(** The state of the collaborators (the cloud behind the managers). *)
Variable W : Type.

(** Go's [strings.EqualFold]. *)
Variable EqualFold : string → string → bool.

(** Declarations of packages [common] and [workflows] outside the files at
    hand: the provider and stack-type constants, the stack naming function
    and the tag builder. *)
Variables EnvProviderEcs EnvProviderEcsFargate EnvProviderEc2 : string.
Variables StackTypeVpc StackTypeTarget StackTypeLoadBalancer StackTypeEnv
  : string.
Variable CreateStackName : string → string → string → string.
Variable createTagMap : EnvironmentTags → gmap string string.

(** The collaborator interfaces: a method takes its arguments and the
    world, and answers with its Go results and the world it leaves. *)
Definition ImageFinder : Type := string → W → (string * option error) * W.
Definition StackUpserter : Type :=
  string → string → Environment → gmap string string → gmap string string →
  string → W → option error * W.
Definition StackWaiter : Type := string → W → option Stack * W.
Definition AZCounter : Type := W → (Z * option error) * W.

Record RolesetUpserter : Type := mkRolesetUpserter {
  UpsertCommonRoleset : W → option error * W;
  UpsertEnvironmentRoleset : string → W → option error * W
}.

Record RolesetGetter : Type := mkRolesetGetter {
  GetCommonRoleset : W → (gmap string string * option error) * W;
  GetEnvironmentRoleset : string → W → (gmap string string * option error) * W
}.

Record StackManager : Type := mkStackManager {
  FindLatestImageID : ImageFinder;
  UpsertStack : StackUpserter;
  AwaitFinalStatus : StackWaiter;
  CountAZs : AZCounter
}.

Record Context : Type := mkContext {
  ctx_Config : Config;
  ctx_StackManager : StackManager;
  ctx_RolesetUpserter : RolesetUpserter;
  ctx_RolesetGetter : RolesetGetter
}.

(** Everything one invocation can read or write: the world, the call log,
    the backing array of [config.Environments], the variables that escaped
    to the heap, the workflow object, and the two maps made by
    [NewEnvironmentUpserter] and shared by its closures. *)
Record State : Type := mkState {
  world : W;
  calls : list Call;
  Environments : list Environment;
  cells : list Environment;
  workflow : Workflow;
  ecsStackParams : gmap string string;
  elbStackParams : gmap string string
}.

Definition M (A : Type) : Type := State → result A * State.

(** A stage: [func() error]. [Ok tt] is the nil error. *)
Definition Executor : Type := M unit.

#[global] Instance M_ret : MRet M := λ A a s, (Ok a, s).

#[global] Instance M_bind : MBind M := λ A B f m s,
  match m s with
  | (Ok a, s') => f a s'
  | (Fail err, s') => (Fail err, s')
  | (Panic, s') => (Panic, s')
  end.

Definition fail {A} (err : error) : M A := λ s, (Fail err, s).
Definition panic {A} : M A := λ s, (Panic, s).

(** [if err != nil { return err }]. *)
Definition check (err : option error) : Executor :=
  match err with
  | Some e => fail e
  | None => mret tt
  end.

(** A call to a collaborator: it runs on the world and is logged. *)
Definition call {A} (method : W → A * W) (entry : A → Call) : M A := λ s,
  let answer := method (world s) in
  (Ok answer.1,
   mkState answer.2 (calls s ++ [entry answer.1]) (Environments s)
           (cells s) (workflow s) (ecsStackParams s) (elbStackParams s)).

(** Loads and stores through a pointer; nil and dangling pointers panic. *)
Definition load (p : option ptr) : M Environment := λ s,
  match p with
  | Some (ElemPtr i) =>
      match Environments s !! i with
      | Some v => (Ok v, s)
      | None => (Panic, s)
      end
  | Some (CellPtr c) =>
      match cells s !! c with
      | Some v => (Ok v, s)
      | None => (Panic, s)
      end
  | None => (Panic, s)
  end.

Definition store (p : ptr) (v : Environment) : M unit := λ s,
  match p with
  | ElemPtr i =>
      (Ok tt, mkState (world s) (calls s) (<[i := v]> (Environments s))
                      (cells s) (workflow s) (ecsStackParams s)
                      (elbStackParams s))
  | CellPtr c =>
      (Ok tt, mkState (world s) (calls s) (Environments s)
                      (<[c := v]> (cells s)) (workflow s)
                      (ecsStackParams s) (elbStackParams s))
  end.

(** A variable whose address is taken: a new cell. *)
Definition alloc (v : Environment) : M ptr := λ s,
  (Ok (CellPtr (length (cells s))),
   mkState (world s) (calls s) (Environments s) (cells s ++ [v])
           (workflow s) (ecsStackParams s) (elbStackParams s)).

Definition getWorkflow : M Workflow := λ s, (Ok (workflow s), s).

Definition setWorkflow (w : Workflow) : M unit := λ s,
  (Ok tt, mkState (world s) (calls s) (Environments s) (cells s) w
                  (ecsStackParams s) (elbStackParams s)).

(** [ecsStackParams[k] = v] and [elbStackParams[k] = v]. *)
Definition setEcs (k v : string) : M unit := λ s,
  (Ok tt, mkState (world s) (calls s) (Environments s) (cells s)
                  (workflow s) (<[k := v]> (ecsStackParams s))
                  (elbStackParams s)).

Definition setElb (k v : string) : M unit := λ s,
  (Ok tt, mkState (world s) (calls s) (Environments s) (cells s)
                  (workflow s) (ecsStackParams s)
                  (<[k := v]> (elbStackParams s))).

Definition getEcs : M (gmap string string) := λ s, (Ok (ecsStackParams s), s).
Definition getElb : M (gmap string string) := λ s, (Ok (elbStackParams s), s).

(** [environment.F] for the workflow's environment pointer. *)
Definition derefEnvironment : M Environment :=
  wf ← getWorkflow; load (environment wf).

(** *** The pipeline *)

(** Modelled from the spec: [newPipelineExecutor] is declared outside the
    files at hand.  The spec (4.1): run the units of work in order, stop at
    and return the first non-nil error, return nil only if every unit
    succeeded. *)
Fixpoint newPipelineExecutor (executors : list Executor) : Executor :=
  match executors with
  | [] => mret tt
  | executor :: rest => executor;; newPipelineExecutor rest
  end.

(** *** environmentFinder *)

(** The body of [for _, e := range config.Environments], from index [i]
    on with [n] elements left.  [e] is the loop variable, which gets a copy
    of the element on each round and whose address the workflow keeps. *)
Fixpoint environmentFinder_range (e : ptr) (i n : nat)
    (environmentName : string) : Executor :=
  match n with
  | O =>
      fail (Warningf ("Unable to find environment named '"
                        +:+ environmentName +:+ "' in configuration"))
  | S n' =>
      elem ← load (Some (ElemPtr i));
      store e elem;;
      v ← load (Some e);
      if EqualFold (Name v) environmentName then
        (if String.eqb (Provider v) ""
         then store e (setProvider EnvProviderEcs v)
         else mret tt);;
        wf ← getWorkflow;
        setWorkflow (mkWorkflow (Some e) (codeRevision wf) (repoName wf)
                                (cloudFormationRoleArn wf));;
        v ← load (Some e);
        if String.eqb (Discovery_Provider v) "consul" then
          fail (Errorf "Consul is no longer supported as a service discovery provider.  Check out the mu-consul extension for an alternative: https://github.com/stelligent/mu-consul")
        else mret tt
      else environmentFinder_range e (S i) n' environmentName
  end.

Definition environmentFinder (environmentName : string) : Executor := λ s,
  (e ← alloc zeroEnvironment;
   environmentFinder_range e 0 (length (Environments s)) environmentName) s.

(** *** environmentVpcUpserter *)

(** Lines 62-100: the stack name, the template name and the parameters of
    the three branches. *)
Definition vpcBranch (namespace : string) (imageFinder : ImageFinder)
    (environment : Environment)
  : M (string * string * gmap string string) :=
  let vpcStackParams : gmap string string := ∅ in
  if nonEmpty (VpcTarget_Environment environment) then
    let targetNamespace :=
      if String.eqb (VpcTarget_Namespace environment) "" then namespace
      else VpcTarget_Namespace environment in
    mret (CreateStackName targetNamespace StackTypeVpc
                          (VpcTarget_Environment environment),
          "", vpcStackParams)
  else if nonEmpty (VpcTarget_VpcID environment) then
    let vpcStackParams :=
      <["VpcId" := VpcTarget_VpcID environment]> vpcStackParams in
    let vpcStackParams :=
      <["ElbSubnetIds" := Join (VpcTarget_ElbSubnetIds environment) ","]>
        vpcStackParams in
    let vpcStackParams :=
      <["InstanceSubnetIds" :=
          Join (VpcTarget_InstanceSubnetIds environment) ","]>
        vpcStackParams in
    mret (CreateStackName namespace StackTypeTarget (Name environment),
          "vpc-target.yml", vpcStackParams)
  else
    let vpcStackParams :=
      if nonEmpty (Cluster_InstanceTenancy environment)
      then <["InstanceTenancy" := Cluster_InstanceTenancy environment]>
             vpcStackParams
      else vpcStackParams in
    let vpcStackParams :=
      if nonEmpty (Cluster_SSHAllow environment)
      then <["SshAllow" := Cluster_SSHAllow environment]> vpcStackParams
      else <["SshAllow" := "0.0.0.0/0"]> vpcStackParams in
    vpcStackParams ←
      (if nonEmpty (Cluster_KeyName environment) then
         let vpcStackParams :=
           <["BastionKeyName" := Cluster_KeyName environment]>
             vpcStackParams in
         '(id, err) ← call (imageFinder ec2ImagePattern)
                           (λ r, CallFindLatestImageID ec2ImagePattern
                                   r.1 r.2);
         let vpcStackParams := <["BastionImageId" := id]> vpcStackParams in
         check err;;
         mret vpcStackParams
       else mret vpcStackParams);
    let vpcStackParams :=
      <["ElbInternal" := FormatBool (Loadbalancer_Internal environment)]>
        vpcStackParams in
    mret (CreateStackName namespace StackTypeVpc (Name environment),
          "vpc.yml", vpcStackParams).

Definition environmentVpcUpserter (namespace : string)
    (imageFinder : ImageFinder) (stackUpserter : StackUpserter)
    (stackWaiter : StackWaiter) (azCounter : AZCounter) : Executor :=
  environment ← derefEnvironment;
  '(vpcStackName, vpcTemplateName, vpcStackParams) ←
    vpcBranch namespace imageFinder environment;
  '(azCount, err) ← call azCounter (λ r, CallCountAZs r.1 r.2);
  check err;;
  (if azCount <? 2 then
     fail (Errorf ("Only found " +:+ Itoa azCount
                     +:+ " availability zones...need at least 2"))
   else mret tt);;
  let vpcStackParams := <["AZCount" := Itoa azCount]> vpcStackParams in
  (if nonEmpty vpcTemplateName then
     wf ← getWorkflow;
     let tags :=
       createTagMap (mkEnvironmentTags (Name environment) StackTypeVpc
                       (Provider environment) (codeRevision wf)
                       (repoName wf)) in
     err ← call (stackUpserter vpcStackName vpcTemplateName environment
                               vpcStackParams tags
                               (cloudFormationRoleArn wf))
                (CallUpsertStack vpcStackName vpcTemplateName environment
                                 vpcStackParams tags
                                 (cloudFormationRoleArn wf));
     check err;;
     stack ← call (stackWaiter vpcStackName)
                  (CallAwaitFinalStatus vpcStackName);
     check (checkFinalStatus vpcStackName stack)
   else mret tt);;
  setEcs "VpcId" (vpcStackName +:+ "-VpcId");;
  setEcs "InstanceSubnetIds" (vpcStackName +:+ "-InstanceSubnetIds");;
  setElb "VpcId" (vpcStackName +:+ "-VpcId");;
  setElb "ElbSubnetIds" (vpcStackName +:+ "-ElbSubnetIds").

(** *** environmentRolesetUpserter *)

Definition environmentRolesetUpserter (rolesetUpserter : RolesetUpserter)
    (rolesetGetter : RolesetGetter) : Executor :=
  err ← call (UpsertCommonRoleset rolesetUpserter) CallUpsertCommonRoleset;
  check err;;
  '(commonRoleset, err) ← call (GetCommonRoleset rolesetGetter)
                               (λ r, CallGetCommonRoleset r.1 r.2);
  check err;;
  wf ← getWorkflow;
  setWorkflow (mkWorkflow (environment wf) (codeRevision wf) (repoName wf)
                          (mapGet commonRoleset "CloudFormationRoleArn"));;
  env ← derefEnvironment;
  err ← call (UpsertEnvironmentRoleset rolesetUpserter (Name env))
             (CallUpsertEnvironmentRoleset (Name env));
  check err;;
  env ← derefEnvironment;
  '(environmentRoleset, err) ←
    call (GetEnvironmentRoleset rolesetGetter (Name env))
         (λ r, CallGetEnvironmentRoleset (Name env) r.1 r.2);
  check err;;
  setEcs "EC2InstanceProfileArn"
         (mapGet environmentRoleset "EC2InstanceProfileArn").

(** *** environmentElbUpserter *)

(** [stackParams := elbStackParams] makes an alias: the stage writes into
    the shared load-balancer map. *)
Definition environmentElbUpserter (namespace : string)
    (imageFinder : ImageFinder) (stackUpserter : StackUpserter)
    (stackWaiter : StackWaiter) : Executor :=
  environment ← derefEnvironment;
  let envStackName :=
    CreateStackName namespace StackTypeLoadBalancer (Name environment) in
  (if nonEmpty (Loadbalancer_Certificate environment)
   then setElb "ElbCert" (Loadbalancer_Certificate environment)
   else mret tt);;
  (if nonEmpty (Loadbalancer_HostedZone environment) then
     setElb "ElbDomainName" (Loadbalancer_HostedZone environment);;
     if String.eqb (Loadbalancer_Name environment) ""
     then setElb "ElbHostName" (Name environment)
     else setElb "ElbHostName" (Loadbalancer_Name environment)
   else mret tt);;
  (if String.eqb (Discovery_Name environment) ""
   then setElb "ServiceDiscoveryName"
               (Name environment +:+ "." +:+ namespace +:+ ".local")
   else setElb "ServiceDiscoveryName" (Discovery_Name environment));;
  setElb "ElbInternal" (FormatBool (Loadbalancer_Internal environment));;
  wf ← getWorkflow;
  let tags :=
    createTagMap (mkEnvironmentTags (Name environment)
                    StackTypeLoadBalancer (Provider environment)
                    (codeRevision wf) (repoName wf)) in
  stackParams ← getElb;
  err ← call (stackUpserter envStackName "elb.yml" environment stackParams
                            tags (cloudFormationRoleArn wf))
             (CallUpsertStack envStackName "elb.yml" environment
                              stackParams tags (cloudFormationRoleArn wf));
  check err;;
  stack ← call (stackWaiter envStackName)
               (CallAwaitFinalStatus envStackName);
  check (checkFinalStatus envStackName stack);;
  match stack with
  | Some stack =>
      setEcs "ElbSecurityGroup"
             (mapGet (Outputs stack) "ElbInstanceSecurityGroup")
  | None => panic
  end.

(** *** environmentUpserter *)

(** The map literal [envMapping] of lines 251-263. *)
Definition envMapping : gmap string (gmap string string) :=
  {[ EnvProviderEcs :=
       {[ "templateName" := "env-ecs.yml";
          "imagePattern" := ecsImagePattern;
          "launchType" := "EC2" ]};
     EnvProviderEcsFargate :=
       {[ "templateName" := "env-ecs.yml";
          "imagePattern" := ecsImagePattern;
          "launchType" := "FARGATE" ]};
     EnvProviderEc2 :=
       {[ "templateName" := "env-ec2.yml";
          "imagePattern" := ec2ImagePattern;
          "launchType" := "" ]} ]}.

(** [envMapping[provider][key]]: a missing provider reads as the nil map,
    a missing key as the empty string. *)
Definition envMappingAt (provider key : string) : string :=
  mapGet (default ∅ (envMapping !! provider)) key.

(** [if v != "" { stackParams[k] = v }] and its integer form. *)
Definition setEcsIfSet (k v : string) : M unit :=
  if nonEmpty v then setEcs k v else mret tt.

Definition setEcsIfNonZero (k : string) (n : Z) : M unit :=
  if n =? 0 then mret tt else setEcs k (Itoa n).

(** [stackParams := ecsStackParams] makes an alias: the stage writes into
    the shared compute map. *)
Definition environmentUpserter (namespace : string)
    (imageFinder : ImageFinder) (stackUpserter : StackUpserter)
    (stackWaiter : StackWaiter) : Executor :=
  environment ← derefEnvironment;
  let envStackName :=
    CreateStackName namespace StackTypeEnv (Name environment) in
  let templateName := envMappingAt (Provider environment) "templateName" in
  let imagePattern := envMappingAt (Provider environment) "imagePattern" in
  setEcs "LaunchType" (envMappingAt (Provider environment) "launchType");;
  (if nonEmpty (Cluster_SSHAllow environment)
   then setEcs "SshAllow" (Cluster_SSHAllow environment)
   else setEcs "SshAllow" "0.0.0.0/0");;
  setEcsIfSet "InstanceType" (Cluster_InstanceType environment);;
  setEcsIfSet "ExtraUserData" (Cluster_ExtraUserData environment);;
  (if nonEmpty (Cluster_ImageID environment)
   then setEcs "ImageId" (Cluster_ImageID environment)
   else
     '(id, err) ← call (imageFinder imagePattern)
                       (λ r, CallFindLatestImageID imagePattern r.1 r.2);
     setEcs "ImageId" id;;
     check err);;
  setEcsIfSet "ImageOsType" (Cluster_ImageOsType environment);;
  setEcsIfNonZero "DesiredCapacity" (Cluster_DesiredCapacity environment);;
  setEcsIfNonZero "MinSize" (Cluster_MinSize environment);;
  setEcsIfNonZero "MaxSize" (Cluster_MaxSize environment);;
  setEcsIfSet "KeyName" (Cluster_KeyName environment);;
  setEcsIfNonZero "TargetCPUReservation"
                  (Cluster_TargetCPUReservation environment);;
  setEcsIfNonZero "TargetMemoryReservation"
                  (Cluster_TargetMemoryReservation environment);;
  setEcsIfSet "HttpProxy" (Cluster_HTTPProxy environment);;
  wf ← getWorkflow;
  let tags :=
    createTagMap (mkEnvironmentTags (Name environment) StackTypeEnv
                    (Provider environment) (codeRevision wf)
                    (repoName wf)) in
  stackParams ← getEcs;
  err ← call (stackUpserter envStackName templateName environment
                            stackParams tags (cloudFormationRoleArn wf))
             (CallUpsertStack envStackName templateName environment
                              stackParams tags (cloudFormationRoleArn wf));
  check err;;
  stack ← call (stackWaiter envStackName)
               (CallAwaitFinalStatus envStackName);
  check (checkFinalStatus envStackName stack).

(** *** NewEnvironmentUpserter *)

(** What [NewEnvironmentUpserter] sets up before the pipeline runs: a new
    workflow with revision and slug from the configuration, two empty maps;
    the configuration's environments are where the context has them. *)
Definition newState (ctx : Context) (w : W) : State :=
  mkState w [] (Config_Environments (ctx_Config ctx)) []
          (mkWorkflow None (Repo_Revision (ctx_Config ctx))
                      (Repo_Slug (ctx_Config ctx)) "")
          ∅ ∅.

Definition NewEnvironmentUpserter (ctx : Context)
    (environmentName : string) : Executor :=
  let namespace := Config_Namespace (ctx_Config ctx) in
  let stackManager := ctx_StackManager ctx in
  newPipelineExecutor [
    environmentFinder environmentName;
    environmentRolesetUpserter (ctx_RolesetUpserter ctx)
                               (ctx_RolesetGetter ctx);
    environmentVpcUpserter namespace (FindLatestImageID stackManager)
      (UpsertStack stackManager) (AwaitFinalStatus stackManager)
      (CountAZs stackManager);
    environmentElbUpserter namespace (FindLatestImageID stackManager)
      (UpsertStack stackManager) (AwaitFinalStatus stackManager);
    environmentUpserter namespace (FindLatestImageID stackManager)
      (UpsertStack stackManager) (AwaitFinalStatus stackManager)
  ].

End Workflow.

Arguments world {W} _.
Arguments calls {W} _.
Arguments Environments {W} _.
Arguments cells {W} _.
Arguments workflow {W} _.
Arguments ecsStackParams {W} _.
Arguments elbStackParams {W} _.
Arguments mkState {W} _ _ _ _ _ _ _.
Arguments fail {W A} _ _.
Arguments panic {W A} _.
Arguments check {W} _ _.
Arguments call {W A} _ _ _.
Arguments load {W} _ _.
Arguments store {W} _ _ _.
Arguments alloc {W} _ _.
Arguments getWorkflow {W} _.
Arguments setWorkflow {W} _ _.
Arguments setEcs {W} _ _ _.
Arguments setElb {W} _ _ _.
Arguments getEcs {W} _.
Arguments getElb {W} _.
Arguments derefEnvironment {W} _.
Arguments setEcsIfSet {W} _ _ _.
Arguments setEcsIfNonZero {W} _ _ _.
Arguments newPipelineExecutor {W} _ _.

(** The environment the workflow's pointer leads to, if any. *)
Definition resolved {W} (s : State W) : option Environment :=
  match environment (workflow s) with
  | Some (ElemPtr i) => Environments s !! i
  | Some (CellPtr c) => cells s !! c
  | None => None
  end.

(** The calls made on the way from [s] to [s']. *)
Definition newCalls {W} (s s' : State W) : list Call :=
  drop (length (calls s)) (calls s').

Definition isFindLatestImageID (c : Call) : bool :=
  match c with CallFindLatestImageID _ _ _ => true | _ => false end.


(** Whatever the world, the answer of the method satisfies [P]. *)
Definition always {W A} (P : A → Prop) (method : W → A * W) : Prop :=
  ∀ w, P (method w).1.

Definition noError {A} (answer : A * option error) : Prop :=
  answer.2 = None.

Definition completes (status : string) (outcome : option Stack) : Prop :=
  ∃ stack, outcome = Some stack ∧ Status stack = status.

(** The parameters of the attribute-supplied branch of the network stage, as
    lines 75-77 and 109 leave them. *)
Definition targetParameters (env : Environment) (azCount : Z)
  : gmap string string :=
  <["AZCount" := Itoa azCount]>
    (<["InstanceSubnetIds" := Join (VpcTarget_InstanceSubnetIds env) ","]>
       (<["ElbSubnetIds" := Join (VpcTarget_ElbSubnetIds env) ","]>
          (<["VpcId" := VpcTarget_VpcID env]> ∅))).

(** The error of line 50. *)
Definition notFound (environmentName : string) : error :=
  Warningf ("Unable to find environment named '" +:+ environmentName
              +:+ "' in configuration").

(** The error of line 44. *)
Definition consulRejected : error :=
  Errorf "Consul is no longer supported as a service discovery provider.  Check out the mu-consul extension for an alternative: https://github.com/stelligent/mu-consul".

Section Vocabulary.

Context {W : Type}.
Variable EqualFold : string → string → bool.
Variable EnvProviderEcs : string.

(** What the finder leaves in the workflow for a matched entry. *)
Definition defaulted (entry : Environment) : Environment :=
  if String.eqb (Provider entry) "" then setProvider EnvProviderEcs entry
  else entry.

(** What a run of the finder's loop over the entries [i, i+n) leaves: every
    part of the state but the loop variable's cell [c] and the workflow's
    pointer is as before; either the first entry of the range whose name
    matches has been copied into [c], with its provider defaulted there,
    and the workflow points at [c], or no entry matches and the loop ends
    in the warning. *)
Definition finderPost (i n c : nat) (environmentName : string)
    (s : State W) (r : result unit) (s' : State W) : Prop :=
  Environments s' = Environments s
  ∧ world s' = world s ∧ calls s' = calls s
  ∧ ecsStackParams s' = ecsStackParams s
  ∧ elbStackParams s' = elbStackParams s
  ∧ length (cells s') = length (cells s)
  ∧ (∀ c', c' ≠ c → cells s' !! c' = cells s !! c')
  ∧ codeRevision (workflow s') = codeRevision (workflow s)
  ∧ repoName (workflow s') = repoName (workflow s)
  ∧ cloudFormationRoleArn (workflow s')
    = cloudFormationRoleArn (workflow s)
  ∧ ((∃ j entry,
         (i ≤ j < i + n)%nat
         ∧ Environments s !! j = Some entry
         ∧ EqualFold (Name entry) environmentName = true
         ∧ (∀ j' entry', (i ≤ j' < j)%nat →
              Environments s !! j' = Some entry' →
              EqualFold (Name entry') environmentName = false)
         ∧ environment (workflow s') = Some (CellPtr c)
         ∧ cells s' !! c = Some (defaulted entry)
         ∧ ((Discovery_Provider entry ≠ "consul" ∧ r = Ok tt)
            ∨ (Discovery_Provider entry = "consul"
               ∧ r = Fail consulRejected)))
     ∨ (r = Fail (notFound environmentName)
        ∧ workflow s' = workflow s
        ∧ ∀ j entry, (i ≤ j < i + n)%nat →
            Environments s !! j = Some entry →
            EqualFold (Name entry) environmentName = false)).

End Vocabulary.

(** ** A sample cloud *)

(** Stand-ins for the declarations and collaborators that are not in the
    files at hand, to run the workflow on concrete inputs.  The world is the
    list of the stacks upserted so far; a stack that was upserted is reported
    complete, any other is untrackable. *)
Module Sample.

Definition CreateStackName (namespace stackType name : string) : string :=
  namespace +:+ "-" +:+ stackType +:+ "-" +:+ name.

Definition createTagMap (t : EnvironmentTags) : gmap string string :=
  {[ "environment" := Tag_Environment t; "type" := Tag_Type t;
     "provider" := Tag_Provider t; "revision" := Tag_Revision t;
     "repo" := Tag_Repo t ]}.

Definition World : Type := list string.

Definition imageFinder : ImageFinder World := λ pattern w,
  ((if String.eqb pattern ecsImagePattern
    then "ami-ecs-0001" else "ami-ec2-0002", None), w).

Definition stackUpserter : StackUpserter World :=
  λ stackName _ _ _ _ _ w, (None, stackName :: w).

Definition outcome (status : string) : Stack :=
  mkStack status "" {[ "ElbInstanceSecurityGroup" := "sg-0a1b2c3d" ]}.

Definition stackWaiter (status : string) : StackWaiter World :=
  λ stackName w,
    (if existsb (String.eqb stackName) w then Some (outcome status)
     else None, w).

Definition azCounter (count : Z) : AZCounter World :=
  λ w, ((count, None), w).

Definition stackManager (count : Z) : StackManager World :=
  mkStackManager World imageFinder stackUpserter
                 (stackWaiter "CREATE_COMPLETE") (azCounter count).

(** A manager whose waiter reports every stack complete, upserted or not. *)
Definition reliableManager (count : Z) : StackManager World :=
mkStackManager World imageFinder stackUpserter
               (λ _ w, (Some (outcome "CREATE_COMPLETE"), w))
               (azCounter count).

Definition rolesetUpserter : RolesetUpserter World :=
  mkRolesetUpserter World (λ w, (None, w)) (λ _ w, (None, w)).

Definition rolesetGetter : RolesetGetter World :=
  mkRolesetGetter World
    (λ w, (({[ "CloudFormationRoleArn" := "arn:aws:iam::1:role/mu-cfn" ]},
            None), w))
    (λ _ w, (({[ "EC2InstanceProfileArn" :=
                  "arn:aws:iam::1:instance-profile/mu" ]}, None), w)).

(** An environment that sets its name and nothing else. *)
Definition named (name : string) : Environment :=
  mkEnvironment name "" "" "" "" "" "" "" "" 0 0 0 0 0 "" "" "" "" false
                "" "" "" "" "" [] [].

(** One that borrows the network of environment [target]. *)
Definition borrowing (name target : string) : Environment :=
  mkEnvironment name "ecs" "" "" "" "" "" "" "" 0 0 0 0 0 "" "" "" "" false
                "" "" target "" "" [] [].

(** One that is given a network by its attributes. *)
Definition attributed (name : string) : Environment :=
  mkEnvironment name "ecs" "" "" "" "" "" "" "" 0 0 0 0 0 "" "" "" "" false
                "" "" "" "" "vpc-12345" ["subnet-a"; "subnet-b"]
                ["subnet-c"; "subnet-d"].

(** One that names its own machine image. *)
Definition withImage (name image : string) : Environment :=
  mkEnvironment name "" "" "" "" "" "" image "" 0 0 0 0 0 "" "" "" "" false
                "" "" "" "" "" [] [].

Definition config (environments : list Environment) : Config :=
  mkConfig environments "mu" "abc1234" "stelligent/mu".

Definition context (environments : list Environment) (count : Z)
  : Context World :=
  mkContext World (config environments) (stackManager count)
            rolesetUpserter rolesetGetter.

(** The full pipeline on the sample cloud, started with no stacks. *)
Definition upsert (environments : list Environment) (count : Z)
    (environmentName : string) : result unit * State World :=
  NewEnvironmentUpserter World EqualFoldAscii "ecs" "ecs-fargate" "ec2"
    "vpc" "target" "loadbalancer" "environment" CreateStackName
    createTagMap (context environments count) environmentName
    (newState World (context environments count) []).

(** The full pipeline with the manager whose waiter never fails. *)
Definition upsertReliably (environments : list Environment) (count : Z)
    (environmentName : string) : result unit * State World :=
let ctx := mkContext World (config environments) (reliableManager count)
                     rolesetUpserter rolesetGetter in
NewEnvironmentUpserter World EqualFoldAscii "ecs" "ecs-fargate" "ec2"
  "vpc" "target" "loadbalancer" "environment" CreateStackName
  createTagMap ctx environmentName (newState World ctx []).

(** A state in which the finder has resolved [env], to run one stage. *)
Definition resolvedState (env : Environment) : State World :=
  mkState [] [] [env] [env]
          (mkWorkflow (Some (CellPtr 0)) "abc1234" "stelligent/mu"
                      "arn:aws:iam::1:role/mu-cfn")
          ∅ ∅.

Definition vpcStage (count : Z) : Executor World :=
  environmentVpcUpserter World "vpc" "target" CreateStackName createTagMap
    "mu" imageFinder stackUpserter (stackWaiter "CREATE_COMPLETE")
    (azCounter count).

Definition elbStage (status : string) : Executor World :=
  environmentElbUpserter World "loadbalancer" CreateStackName createTagMap
    "mu" imageFinder stackUpserter (stackWaiter status).

Definition envStage (status : string) : Executor World :=
  environmentUpserter World "ecs" "ecs-fargate" "ec2" "environment"
    CreateStackName createTagMap
    "mu" imageFinder stackUpserter (stackWaiter status).

End Sample.

(** ** Vocabulary for the further properties *)

(** The error a logged call answered with, nil for a wait. *)
Definition callError (c : Call) : option error :=
  match c with
  | CallFindLatestImageID _ _ err | CallCountAZs _ err
  | CallUpsertStack _ _ _ _ _ _ err | CallUpsertCommonRoleset err
  | CallGetCommonRoleset _ err | CallUpsertEnvironmentRoleset _ err
  | CallGetEnvironmentRoleset _ _ err => err
  | CallAwaitFinalStatus _ _ => None
  end.

(** What an optional parameter reads as after the compute stage's
    conditional write: the configured value, or whatever the map held. *)
Definition optionalString (v : string) (held : option string)
  : option string :=
  if nonEmpty v then Some v else held.

Definition optionalInt (n : Z) (held : option string) : option string :=
  if n =? 0 then held else Some (Itoa n).

(** The stack names of the templates submitted, in the order of the log. *)
Definition submitted (log : list Call) : list string :=
  omap (λ c, match c with
             | CallUpsertStack stackName _ _ _ _ _ _ => Some stackName
             | _ => None
             end) log.

(** When an upsert answers an error the stage returns it and does not
    wait. *)
Definition upsertErrorReturned {W} (s : State W) (r : result unit)
    (s' : State W)
  : Prop :=
  ∀ stackName templateName e parameters tags roleArn err,
    CallUpsertStack stackName templateName e parameters tags roleArn
                    (Some err) ∈ newCalls s s' →
    r = Fail err ∧ existsb isAwaitFinalStatus (newCalls s s') = false.

(** What stack stages guarantee of a run from [s], the workflow pointing at
    [env]: the run does not panic and leaves the workflow as it is; the
    calls it adds to the log submit stacks only for [env], under the
    workflow's role and with the tags of the workflow and of one of
    [stackTypes], and the stack names submitted are an initial part of
    [planned], all of it when the run returns nil. *)
Definition stackStagePost {W}
    (createTagMap : EnvironmentTags → gmap string string)
    (stackTypes : list string) (planned : list string) (env : Environment)
    (s : State W) (r : result unit) (s' : State W) : Prop :=
  r ≠ Panic
  ∧ workflow s' = workflow s
  ∧ resolved s' = Some env
  ∧ ∃ log,
      calls s' = calls s ++ log
      ∧ submitted log `prefix_of` planned
      ∧ (r = Ok tt → submitted log = planned)
      ∧ ∀ stackName templateName e parameters tags roleArn err,
          CallUpsertStack stackName templateName e parameters tags roleArn
                          err ∈ log →
          e = env
          ∧ roleArn = cloudFormationRoleArn (workflow s)
          ∧ ∃ stackType,
              stackType ∈ stackTypes
              ∧ tags = createTagMap
                         (mkEnvironmentTags
                            (Name env) stackType (Provider env)
                            (codeRevision (workflow s))
                            (repoName (workflow s))).

(** * common/git.go: findGitDirectory *)

Section Git.

(** [os.Stat] followed by [Mode().IsDir()], [path.Dir] and [path.Join] are
    the library's; the search is written over them.  The file system is
    taken not to change while the search runs, so [os.Stat] is a function
    of the path. *)
Variable os_Stat : string → bool + error.
Variable path_Dir : string → string.
Variable path_Join : string → string → string.

(** [findGitDirectory] calls itself on the parent directory; [fuel] bounds
    the depth of that recursion, and [None] is a run that has not returned
    within it. *)
Fixpoint findGitDirectory (fuel : nat) (fromFile : string)
  : option (string * option error) :=
  match fuel with
  | O => None
  | S fuel =>
      match os_Stat fromFile with
      | inr err => Some ("", Some err)
      | inl isDir =>
          let dir := if isDir then fromFile else path_Dir fromFile in
          let gitPath := path_Join dir ".git" in
          match os_Stat gitPath with
          | inl true => Some (gitPath, None)
          | _ =>
              if String.eqb dir "/"
              then Some ("", Some (Error "Unable to find git repo"))
              else findGitDirectory fuel (path_Dir dir)
          end
      end
  end.

(** The directory a call looks into (lines 52-62), when [fromFile] can be
    examined. *)
Definition searchDir (fromFile : string) : option string :=
  match os_Stat fromFile with
  | inl true => Some fromFile
  | inl false => Some (path_Dir fromFile)
  | inr _ => None
  end.

(** [dir] holds a directory named [.git]. *)
Definition hasGit (dir : string) : Prop :=
  os_Stat (path_Join dir ".git") = inl true.

(** The call on [fromFile] ends in the recursive call on [next]. *)
Definition recurses (fromFile next : string) : Prop :=
  ∃ dir, searchDir fromFile = Some dir ∧ ¬ hasGit dir ∧ dir ≠ "/"
         ∧ next = path_Dir dir.

End Git.

(** ** Faults and files for the sample cloud *)

(** Collaborators that fail, environments that set one more field, and a
    small file system. *)
Module Faults.

Definition denied : error := Error "AccessDenied".

Definition imageFinder : ImageFinder Sample.World :=
  λ _ w, (("", Some denied), w).

Definition azCounter : AZCounter Sample.World :=
  λ w, ((0, Some denied), w).

Definition stackUpserter : StackUpserter Sample.World :=
  λ _ _ _ _ _ _ w, (Some denied, w).

(** The common roleset goes through, the environment's does not. *)
Definition rolesetUpserter : RolesetUpserter Sample.World :=
  mkRolesetUpserter Sample.World (λ w, (None, w)) (λ _ w, (Some denied, w)).

Definition withConsul (name : string) : Environment :=
  mkEnvironment name "" "" "" "" "" "" "" "" 0 0 0 0 0 "" "" "" "" false
                "consul" "" "" "" "" [] [].

Definition withProvider (name provider : string) : Environment :=
  mkEnvironment name provider "" "" "" "" "" "" "" 0 0 0 0 0 "" "" "" ""
                false "" "" "" "" "" [] [].

Definition withKey (name key : string) : Environment :=
  mkEnvironment name "ecs" "" "" key "" "" "" "" 0 0 0 0 0 "" "" "" "" false
                "" "" "" "" "" [] [].

(** One that sizes its cluster and leaves the rest unset. *)
Definition sized (name : string) : Environment :=
  mkEnvironment name "ecs" "" "10.0.0.0/8" "" "t3.large" "" "" "" 3 1 5 0 0
                "" "" "" "" false "" "" "" "" "" [] [].

(** One that asks for a certificate and a hosted zone. *)
Definition secured (name : string) : Environment :=
  mkEnvironment name "ecs" "" "" "" "" "" "" "" 0 0 0 0 0 ""
                "arn:aws:acm:cert/1" "example.com" "" true "" "" "" "" ""
                [] [].

(** The directories [/], [/repo], [/repo/.git], [/repo/src], [/tmp] and the
    working directory [.], the files [/repo/src/main.go], [/tmp/notes.txt]
    and, in the working directory, [notes.txt]. *)
Definition os_Stat (name : string) : bool + error :=
  if existsb (String.eqb name)
             ["/"; "/repo"; "/repo/.git"; "/repo/src"; "/tmp"; "."]
  then inl true
  else if existsb (String.eqb name)
                  ["/repo/src/main.go"; "/tmp/notes.txt"; "notes.txt"]
  then inl false
  else inr (Error ("stat " +:+ name +:+ ": no such file or directory")).

Definition path_Dir (name : string) : string :=
  if String.eqb name "/repo/src/main.go" then "/repo/src"
  else if String.eqb name "/repo/src" then "/repo"
  else if String.eqb name "/tmp/notes.txt" then "/tmp"
  else if String.prefix "/" name then "/"
  else ".".

Definition path_Join (dir name : string) : string :=
  if String.eqb dir "/" then "/" +:+ name
  else if String.eqb dir "." then name
  else dir +:+ "/" +:+ name.

Definition findGitDirectory : nat → string → option (string * option error) :=
  findGitDirectory os_Stat path_Dir path_Join.

Definition rolesetStage (upserter : RolesetUpserter Sample.World)
  : Executor Sample.World :=
  environmentRolesetUpserter Sample.World upserter Sample.rolesetGetter.

(** The stages with one collaborator of choice. *)
Definition vpcStage (imageFinder : ImageFinder Sample.World)
    (azCounter : AZCounter Sample.World) : Executor Sample.World :=
  environmentVpcUpserter Sample.World "vpc" "target" Sample.CreateStackName
    Sample.createTagMap "mu" imageFinder Sample.stackUpserter
    (Sample.stackWaiter "CREATE_COMPLETE") azCounter.

Definition envStage (imageFinder : ImageFinder Sample.World)
    (stackUpserter : StackUpserter Sample.World) : Executor Sample.World :=
  environmentUpserter Sample.World "ecs" "ecs-fargate" "ec2" "environment"
    Sample.CreateStackName Sample.createTagMap
    "mu" imageFinder stackUpserter (Sample.stackWaiter "CREATE_COMPLETE").

End Faults.

(** * Reasoning about stages *)

(** [wp m Q s]: running [m] from [s] ends in a result and a state that
    satisfy [Q]. *)
Definition wp {W A} (m : M W A) (Q : result A → State W → Prop) (s : State W)
  : Prop :=
  Q (m s).1 (m s).2.

(** What [bind] does with the result of its first half. *)
Definition andThen {W A B} (f : A → M W B) (Q : result B → State W → Prop)
  : result A → State W → Prop :=
  λ r s,
    match r with
    | Ok a => wp (f a) Q s
    | Fail err => Q (Fail err) s
    | Panic => Q Panic s
    end.

Section WP.
Context {W : Type}.
Implicit Types s : State W.

Lemma wp_run {A} (m : M W A) Q s r s' :
  wp m Q s → m s = (r, s') → Q r s'.
Proof. unfold wp. intros H E. by rewrite E in H. Qed.

Lemma wp_bind {A B} (m : M W A) (f : A → M W B) Q s :
  wp m (andThen f Q) s → wp (m ≫= f) Q s.
Proof.
  unfold wp, andThen, mbind, M_bind.
  destruct (m s) as [[a|err|] s1]; simpl; auto.
Qed.

Lemma wp_ret {A} (a : A) (Q : result A → State W → Prop) s :
  Q (Ok a) s → wp (mret a) Q s.
Proof. done. Qed.

Lemma wp_fail {A} err (Q : result A → State W → Prop) s :
  Q (Fail err) s → wp (fail err) Q s.
Proof. done. Qed.

Lemma wp_panic {A} (Q : result A → State W → Prop) s :
  Q Panic s → wp panic Q s.
Proof. done. Qed.

Lemma wp_check err (Q : result unit → State W → Prop) s :
  match err with Some e => Q (Fail e) s | None => Q (Ok tt) s end →
  wp (check err) Q s.
Proof. by destruct err. Qed.

Lemma wp_call {A} (method : W → A * W) entry
    (Q : result A → State W → Prop) s a w :
  method (world s) = (a, w) →
  Q (Ok a) (mkState w (calls s ++ [entry a]) (Environments s) (cells s)
                    (workflow s) (ecsStackParams s) (elbStackParams s)) →
  wp (call method entry) Q s.
Proof. unfold wp, call. by intros ->. Qed.

Lemma wp_load p (Q : result Environment → State W → Prop) s :
  match p with
  | Some (ElemPtr i) =>
      match Environments s !! i with Some v => Q (Ok v) s | None => Q Panic s end
  | Some (CellPtr c) =>
      match cells s !! c with Some v => Q (Ok v) s | None => Q Panic s end
  | None => Q Panic s
  end →
  wp (load p) Q s.
Proof. unfold wp, load. by repeat case_match. Qed.

Lemma wp_derefEnvironment (Q : result Environment → State W → Prop) s :
  wp (load (environment (workflow s))) Q s → wp derefEnvironment Q s.
Proof. intros H. apply wp_bind. exact H. Qed.

Lemma wp_deref (Q : result Environment → State W → Prop) s env :
  resolved s = Some env → Q (Ok env) s → wp derefEnvironment Q s.
Proof.
  unfold resolved. intros Hres HQ. apply wp_derefEnvironment, wp_load.
  repeat case_match; simplify_eq; done.
Qed.

Lemma wp_prim {A} (m : M W A) (Q : result A → State W → Prop) s r s' :
  m s = (r, s') → Q r s' → wp m Q s.
Proof. unfold wp. by intros ->. Qed.

(** The conditional writes of the compute stage, as one write of a
    conditional value. *)
Lemma setEcsIfSet_run k v s :
  setEcsIfSet k v s
  = (Ok tt,
     mkState (world s) (calls s) (Environments s) (cells s) (workflow s)
             ((if nonEmpty v then <[k := v]> else id) (ecsStackParams s))
             (elbStackParams s)).
Proof. unfold setEcsIfSet. by destruct (nonEmpty v), s. Qed.

Lemma setEcsIfNonZero_run k n s :
  setEcsIfNonZero k n s
  = (Ok tt,
     mkState (world s) (calls s) (Environments s) (cells s) (workflow s)
             ((if n =? 0 then id else <[k := Itoa n]>) (ecsStackParams s))
             (elbStackParams s)).
Proof. unfold setEcsIfNonZero. by destruct (n =? 0), s. Qed.

Lemma wp_conseq {A} (m : M W A) (Q Q' : result A → State W → Prop) s :
  wp m Q s → (∀ r s', Q r s' → Q' r s') → wp m Q' s.
Proof. unfold wp. auto. Qed.


Lemma lookup_if_insert_ne (b : bool) (k k' v : string)
    (m : gmap string string) :
  k' ≠ k →
  (if b then <[k' := v]> else id) m !! k = m !! k.
Proof. intros. destruct b; [by rewrite lookup_insert_ne | done]. Qed.

Lemma lookup_if_id_insert_ne (b : bool) (k k' v : string)
    (m : gmap string string) :
  k' ≠ k →
  (if b then id else <[k' := v]>) m !! k = m !! k.
Proof. intros. destruct b; [done | by rewrite lookup_insert_ne]. Qed.

Lemma setElb_if_run (b : bool) k v s :
  (if b then setElb k v else mret tt) s
  = (Ok tt,
     mkState (world s) (calls s) (Environments s) (cells s) (workflow s)
             (ecsStackParams s)
             ((if b then <[k := v]> else id) (elbStackParams s))).
Proof. by destruct b, s. Qed.

Lemma setElb_either_run (b : bool) k v1 v2 s :
  (if b then setElb k v1 else setElb k v2) s
  = (Ok tt,
     mkState (world s) (calls s) (Environments s) (cells s) (workflow s)
             (ecsStackParams s)
             (<[k := if b then v1 else v2]> (elbStackParams s))).
Proof. by destruct b. Qed.

Lemma setEcs_either_run (b : bool) k v1 v2 s :
  (if b then setEcs k v1 else setEcs k v2) s
  = (Ok tt,
     mkState (world s) (calls s) (Environments s) (cells s) (workflow s)
             (<[k := if b then v1 else v2]> (ecsStackParams s))
             (elbStackParams s)).
Proof. by destruct b. Qed.

End WP.

Arguments wp : simpl never.

(** One step of symbolic execution of a stage. *)
Ltac wp_step :=
  lazymatch goal with
  | |- wp (mbind _ _) _ _ => apply wp_bind
  | |- wp (mret _) _ _ => apply wp_ret
  | |- wp (fail _) _ _ => apply wp_fail
  | |- wp panic _ _ => apply wp_panic
  | |- wp (check _) _ _ => apply wp_check
  | |- wp (call ?m _) _ ?s =>
      let a := fresh "a" in let w := fresh "w" in let E := fresh "Ecall" in
      let w0 := eval cbn [world] in (world s) in
      first [ lazymatch goal with
              | H : m w0 = (_, _) |- _ =>
                  eapply wp_call; [ cbn [world]; exact H |]
              end
            | destruct (m w0) as [a w] eqn:E;
              eapply wp_call; [ cbn [world]; exact E |] ]
  | |- wp derefEnvironment _ _ =>
      first [ eapply wp_deref;
              [ lazymatch goal with
                | H : resolved _ = Some _ |- _ => exact H
                end | ]
            | apply wp_derefEnvironment ]
  | |- wp (load _) _ _ => apply wp_load
  | |- wp (store _ _) _ _ => eapply wp_prim; [ reflexivity |]
  | |- wp (alloc _) _ _ => eapply wp_prim; [ reflexivity |]
  | |- wp getWorkflow _ _ => eapply wp_prim; [ reflexivity |]
  | |- wp (setWorkflow _) _ _ => eapply wp_prim; [ reflexivity |]
  | |- wp (setEcs _ _) _ _ => eapply wp_prim; [ reflexivity |]
  | |- wp (setElb _ _) _ _ => eapply wp_prim; [ reflexivity |]
  | |- wp getEcs _ _ => eapply wp_prim; [ reflexivity |]
  | |- wp getElb _ _ => eapply wp_prim; [ reflexivity |]
  | |- wp (setEcsIfSet _ _) _ _ =>
      eapply wp_prim; [ apply setEcsIfSet_run |]
  | |- wp (setEcsIfNonZero _ _) _ _ =>
      eapply wp_prim; [ apply setEcsIfNonZero_run |]
  | |- wp (if ?b then ?m1 else ?m2) _ _ =>
      first [ lazymatch goal with H : b = _ |- _ => rewrite H end
            | lazymatch m1 with
              | setElb ?k _ =>
                  lazymatch m2 with
                  | mret tt => eapply wp_prim; [ apply setElb_if_run |]
                  | setElb k _ =>
                      eapply wp_prim; [ apply setElb_either_run |]
                  end
              | setEcs ?k _ =>
                  lazymatch m2 with
                  | setEcs k _ =>
                      eapply wp_prim; [ apply setEcs_either_run |]
                  end
              end
            | destruct b eqn:? ]
  | |- wp (match ?x with _ => _ end) _ _ =>
      first [ lazymatch goal with H : x = _ |- _ => rewrite H end
            | destruct x eqn:? ]
  | |- andThen _ _ _ _ => unfold andThen at 1
  | |- match ?x with _ => _ end => destruct x eqn:?
  end;
  cbv beta iota zeta;
  change (nonEmpty "") with false;
  change (nonEmpty "vpc.yml") with true;
  change (nonEmpty "vpc-target.yml") with true;
  cbv beta iota zeta;
  cbn [world calls Environments cells workflow ecsStackParams elbStackParams
       environment codeRevision repoName cloudFormationRoleArn fst snd].

(** Splits [H : c ∈ [c1; ...; cn]] into the cases [c = ci], dropping those
    where the two calls are to different methods. *)
Ltac in_calls H :=
  repeat first
    [ apply elem_of_nil in H; destruct H
    | apply elem_of_cons in H as [H|H]; [ try discriminate H | ] ];
  try (injection H as -> ->).

Ltac wp_go := repeat wp_step.


(** Uses what is assumed of a method ([always P method]) on the answer of
    its latest call. *)
Ltac answer :=
  repeat match goal with
    | E : ?m ?w0 = (?a, _) |- _ =>
        is_var a;
        let X := fresh "X" in
        match goal with
        | H : context [always ?P _] |- _ =>
            assert (X : always P m) by apply H
        end;
        specialize (X w0); rewrite E in X; cbn [fst snd] in X;
        first
          [ subst a
          | unfold noError in X; destruct a as [? ?]; cbn [fst snd] in X;
            simplify_eq
          | let st := fresh "stack" in
            let Hst := fresh "Hstatus" in
            destruct X as (st & -> & Hst) ]
    end.

(** Reads a key of a map written by a chain of (conditional) inserts. *)
Ltac read_map :=
  repeat first
    [ rewrite lookup_insert_eq
    | rewrite lookup_insert_ne by done
    | rewrite lookup_if_insert_ne by done
    | rewrite lookup_if_id_insert_ne by done ].

(** * Properties of the Go string functions *)

Section Strings.







Lemma Contains_middle (a b c : string) : Contains (a +:+ b +:+ c) b.
Proof. by exists a, c. Qed.

End Strings.

(** * The completion classifier *)

Section Classifier.



Example classify_CREATE_COMPLETE :
  checkFinalStatus "mu-vpc-dev" (Some (mkStack "CREATE_COMPLETE" "" ∅))
  = None.
Proof. reflexivity. Qed.

Example classify_ROLLBACK_COMPLETE :
  checkFinalStatus "mu-vpc-dev" (Some (mkStack "ROLLBACK_COMPLETE" "no" ∅))
  = Some (Errorf "Ended in failed status ROLLBACK_COMPLETE no").
Proof. reflexivity. Qed.

Example classify_UPDATE_ROLLBACK_COMPLETE :
  checkFinalStatus "mu-vpc-dev"
    (Some (mkStack "UPDATE_ROLLBACK_COMPLETE" "" ∅))
  = Some (Errorf "Ended in failed status UPDATE_ROLLBACK_COMPLETE ").
Proof. reflexivity. Qed.

Example classify_CREATE_IN_PROGRESS :
  checkFinalStatus "mu-vpc-dev" (Some (mkStack "CREATE_IN_PROGRESS" "" ∅))
  = Some (Errorf "Ended in failed status CREATE_IN_PROGRESS ").
Proof. reflexivity. Qed.

Example classify_absent :
  checkFinalStatus "mu-vpc-dev" None
  = Some (Errorf "Unable to create stack mu-vpc-dev").
Proof. reflexivity. Qed.

End Classifier.

Section SampleRuns.

Example sample_upsert_staging :
  (Sample.upsert [Sample.named "staging"] 2 "Staging").1 = Ok tt.
Proof. vm_compute. reflexivity. Qed.

Example sample_upsert_staging_calls :
  length (calls (Sample.upsert [Sample.named "staging"] 2 "Staging").2)
  = 12%nat.
Proof. vm_compute. reflexivity. Qed.

End SampleRuns.

(** * The stages *)

(** Brings the goal [stage s = (r, s') → P r s'] to [wp stage P s]. *)
Ltac by_wp :=
  lazymatch goal with
  | |- ?m ?s = (?r, ?s') → ?P =>
      let Q := eval pattern r, s' in P in
      lazymatch Q with
      | ?Q' r s' =>
          revert r s';
          cut (wp m Q' s);
          [ let H := fresh in
            let E := fresh in
            intros H ? ? E; exact (wp_run _ _ _ _ _ H E)
          | ]
      end
  end.

(** Rewrites [newCalls s s'] to the list of the calls appended to the log. *)
Ltac new_calls :=
  unfold newCalls; cbn [calls];
  rewrite <- ?app_assoc;
  rewrite ?drop_app_length, ?drop_all;
  cbn [app].

Section Stages.

Context {W : Type}.
Variable EqualFold : string → string → bool.
Variables EnvProviderEcs EnvProviderEcsFargate EnvProviderEc2 : string.
Variables StackTypeVpc StackTypeTarget StackTypeLoadBalancer StackTypeEnv
  : string.
Variable CreateStackName : string → string → string → string.
Variable createTagMap : EnvironmentTags → gmap string string.

Local Abbreviation vpcStage :=
  (environmentVpcUpserter W StackTypeVpc StackTypeTarget CreateStackName
                          createTagMap).
Local Abbreviation elbStage :=
  (environmentElbUpserter W StackTypeLoadBalancer CreateStackName
                          createTagMap).
Local Abbreviation envStage :=
  (environmentUpserter W EnvProviderEcs EnvProviderEcsFargate
                       EnvProviderEc2 StackTypeEnv CreateStackName
                       createTagMap).
Local Abbreviation rolesetStage := (environmentRolesetUpserter W).
Local Abbreviation finder := (environmentFinder W EqualFold EnvProviderEcs).

Implicit Types s : State W.





(** ** The load-balancer stage *)

(** C2, as amended: after a successful load-balancer stage the value under
    [ElbSecurityGroup] in the compute-layer map is the literal the awaited
    outcome of the load-balancer stack holds under
    [ElbInstanceSecurityGroup] in its output mapping (the empty string when
    the mapping has no such key); the last call of the stage is that
    wait. *)
Theorem C2_security_group_read_from_outputs namespace imageFinder
    stackUpserter stackWaiter s env s' :
  resolved s = Some env →
  elbStage namespace imageFinder stackUpserter stackWaiter s = (Ok tt, s') →
  ∃ stack,
    last (newCalls s s')
    = Some (CallAwaitFinalStatus
              (CreateStackName namespace StackTypeLoadBalancer (Name env))
              (Some stack))
    ∧ ecsStackParams s' !! "ElbSecurityGroup"
      = Some (mapGet (Outputs stack) "ElbInstanceSecurityGroup").
Proof.
  intros Hres Hrun.
  cut (∀ r s1,
          elbStage namespace imageFinder stackUpserter stackWaiter s
          = (r, s1) →
          r = Ok tt →
          ∃ stack,
            last (newCalls s s1)
            = Some (CallAwaitFinalStatus
                      (CreateStackName namespace StackTypeLoadBalancer
                                       (Name env))
                      (Some stack))
            ∧ ecsStackParams s1 !! "ElbSecurityGroup"
              = Some (mapGet (Outputs stack) "ElbInstanceSecurityGroup")).
  { intros H. by eapply H. }
  clear Hrun s'. intros r s1.
  by_wp. unfold environmentElbUpserter.
  wp_go; try discriminate; intros _; new_calls.
  all: eexists; split; [reflexivity | apply lookup_insert_eq].
Qed.

(** ** The network stage *)

(** C3, as amended: in the attribute-supplied branch, once an
    availability-zone count of at least 2 has been fetched, the stage
    submits one template, [vpc-target.yml], under the target stack name,
    and its parameter map holds exactly the supplied VPC id, the two
    comma-joined subnet-id lists and [AZCount], the decimal count. *)
Theorem C3_target_parameters namespace imageFinder stackUpserter
    stackWaiter azCounter s env azCount w r s' :
  resolved s = Some env →
  VpcTarget_Environment env = "" →
  VpcTarget_VpcID env ≠ "" →
  azCounter (world s) = ((azCount, None), w) →
  2 ≤ azCount →
  vpcStage namespace imageFinder stackUpserter stackWaiter azCounter s
  = (r, s') →
  ∃ tags roleArn err rest,
    newCalls s s'
    = CallCountAZs azCount None
        :: CallUpsertStack
             (CreateStackName namespace StackTypeTarget (Name env))
             "vpc-target.yml" env (targetParameters env azCount) tags
             roleArn err
        :: rest
    ∧ existsb isUpsertStack rest = false.
Proof.
  intros Hres Hborrow Htarget Haz Hcount.
  assert (nonEmpty (VpcTarget_Environment env) = false) as Hb
    by (by rewrite Hborrow).
  assert (nonEmpty (VpcTarget_VpcID env) = true) as Ht
    by (unfold nonEmpty; by apply negb_true_iff, String.eqb_neq).
  assert ((azCount <? 2) = false) as Hlt by lia.
  by_wp. unfold environmentVpcUpserter, vpcBranch.
  wp_go; new_calls; by do 4 eexists.
Qed.

(** C5: in the borrowed-network branch the only call the stage makes is
    the availability-zone count, so no template is submitted and nothing
    is awaited; the stage returns nil exactly when that count comes
    without error and is at least 2, and on that return the compute-layer
    map holds [VpcId] and [InstanceSubnetIds] and the load-balancer-layer
    map [VpcId] and [ElbSubnetIds], each the stack name followed by a dash
    and the output key, the stack name computed from the target namespace
    (the invocation's when unset), the network stack type and the target
    environment's name. *)
Theorem C5_borrowed_network namespace imageFinder stackUpserter stackWaiter
    azCounter s env r s' :
  resolved s = Some env →
  VpcTarget_Environment env ≠ "" →
  vpcStage namespace imageFinder stackUpserter stackWaiter azCounter s
  = (r, s') →
  ∃ azCount err,
    newCalls s s' = [CallCountAZs azCount err]
    ∧ (r = Ok tt ↔ err = None ∧ 2 ≤ azCount)
    ∧ (r = Ok tt →
       let vpcStackName :=
         CreateStackName
           (if String.eqb (VpcTarget_Namespace env) "" then namespace
            else VpcTarget_Namespace env)
           StackTypeVpc (VpcTarget_Environment env) in
       ecsStackParams s' !! "VpcId" = Some (vpcStackName +:+ "-VpcId")
       ∧ ecsStackParams s' !! "InstanceSubnetIds"
         = Some (vpcStackName +:+ "-InstanceSubnetIds")
       ∧ elbStackParams s' !! "VpcId" = Some (vpcStackName +:+ "-VpcId")
       ∧ elbStackParams s' !! "ElbSubnetIds"
         = Some (vpcStackName +:+ "-ElbSubnetIds")).
Proof.
  intros Hres Hborrow.
  assert (nonEmpty (VpcTarget_Environment env) = true) as Hb
    by (unfold nonEmpty; by apply negb_true_iff, String.eqb_neq).
  by_wp. unfold environmentVpcUpserter, vpcBranch.
  wp_go; new_calls; do 2 eexists; (split; [reflexivity |]);
    (split; [split; [try discriminate | intros [? ?]; try discriminate;
                                        try lia]
            | try discriminate]).
  - intros _. split; [done | lia].
  - done.
  - intros _. cbv zeta. by read_map.
Qed.

(** C6: in every branch of the network stage, when the availability-zone
    count that was fetched is below 2 the stage fails with the error
    [Only found <count> availability zones...need at least 2], which
    mentions the count, and no template is submitted; when it is 2 or more
    the stage goes on: in the borrowed branch it returns nil, in the two
    others it submits its template. *)
Theorem C6_az_count_validated namespace imageFinder stackUpserter
    stackWaiter azCounter s env r s' azCount :
  resolved s = Some env →
  vpcStage namespace imageFinder stackUpserter stackWaiter azCounter s
  = (r, s') →
  CallCountAZs azCount None ∈ newCalls s s' →
  (azCount < 2 →
   ∃ msg,
     r = Fail (Errorf msg)
     ∧ msg = "Only found " +:+ Itoa azCount
             +:+ " availability zones...need at least 2"
     ∧ Contains msg (Itoa azCount)
     ∧ existsb isUpsertStack (newCalls s s') = false)
  ∧ (2 ≤ azCount →
     if nonEmpty (VpcTarget_Environment env) then r = Ok tt
     else existsb isUpsertStack (newCalls s s') = true).
Proof.
  intros Hres. by_wp. unfold environmentVpcUpserter, vpcBranch.
  wp_go; new_calls; intros Hin; in_calls Hin; simplify_eq;
    (split; intros ?; [try lia | try lia; try done]).
  all: try (eexists; split; [reflexivity |]; split; [reflexivity |];
            split; [apply Contains_middle | reflexivity]).
  all: try match goal with H : nonEmpty _ = _ |- _ => by rewrite H end.
Qed.

(** C9: when the network stage returns an error, whatever the reason, the
    compute-layer and load-balancer-layer maps are as they were on
    entry. *)
Theorem C9_failure_leaves_maps namespace imageFinder stackUpserter
    stackWaiter azCounter s err s' :
  vpcStage namespace imageFinder stackUpserter stackWaiter azCounter s
  = (Fail err, s') →
  ecsStackParams s' = ecsStackParams s
  ∧ elbStackParams s' = elbStackParams s.
Proof.
  intros Hrun.
  cut (∀ r s1,
          vpcStage namespace imageFinder stackUpserter stackWaiter
                   azCounter s = (r, s1) →
          r ≠ Ok tt →
          ecsStackParams s1 = ecsStackParams s
          ∧ elbStackParams s1 = elbStackParams s).
  { intros H. by eapply H. }
  clear Hrun s'. intros r s1.
  by_wp. unfold environmentVpcUpserter, vpcBranch.
  wp_go; done.
Qed.

(** ** The environment finder *)

Lemma finder_range_wp n :
  ∀ i c environmentName s,
    (c < length (cells s))%nat →
    (i + n)%nat = length (Environments s) →
    wp (environmentFinder_range W EqualFold EnvProviderEcs (CellPtr c) i n
                                environmentName)
       (finderPost EqualFold EnvProviderEcs i n c environmentName s) s.
Proof.
  induction n as [|n IH]; intros i c environmentName s Hc Hlen;
    cbn [environmentFinder_range].
  - wp_step. unfold finderPost. repeat (split; [done |]).
    right. repeat split; try done. intros; lia.
  - destruct (lookup_lt_is_Some_2 (Environments s) i) as [entry Hentry];
      [lia |].
    apply wp_bind, wp_load. rewrite Hentry. unfold andThen at 1.
    do 3 wp_step.
    apply wp_bind, wp_load. cbn [cells].
    rewrite list_lookup_insert_eq by done. unfold andThen at 1.
    destruct (EqualFold (Name entry) environmentName) eqn:Hfold.
    + wp_go;
        repeat match goal with
               | H : <[_:=_]> _ !! _ = _ |- _ =>
                   rewrite list_lookup_insert_eq in H
                     by (rewrite ?length_insert; done);
                   simplify_eq
               end;
        unfold finderPost; cbn;
        rewrite ?length_insert;
        repeat (split; [done || (intros; by rewrite ?list_lookup_insert_ne)
                       |]);
        left; eexists i, _;
        (split; [lia |]); (split; [eassumption |]); (split; [done |]);
        (split; [intros; lia |]); (split; [done |]);
        (split; [unfold defaulted;
                 match goal with H : (Provider _ =? _)%string = _ |- _ =>
                   rewrite H end;
                 by rewrite ?list_lookup_insert_eq
                   by (rewrite ?length_insert; done) |]).
      all: match goal with
           | H : (_ =? "consul")%string = true |- _ =>
               right; apply String.eqb_eq in H; split; [exact H | done]
           | H : (_ =? "consul")%string = false |- _ =>
               left; apply String.eqb_neq in H; split; [exact H | done]
           end.
    + eapply wp_conseq.
      { apply (IH (S i) c environmentName); cbn;
          [by rewrite length_insert | lia]. }
      intros r s'. unfold finderPost. cbn. rewrite length_insert.
      intros (HE & Hw & Hcalls & Hecs & Helb & Hcl & Hother & Hrev & Hrepo
              & Harn & Hcase).
      repeat (split; [done |]).
      split; [intros c' Hc'; by rewrite Hother, list_lookup_insert_ne |].
      repeat (split; [done |]).
      destruct Hcase as [(j & entry' & Hj & Hlook & Hmatch & Hfirst & Hrest)
                        | (Hr & Hwf & Hnone)].
      * left. exists j, entry'. split; [lia |]. split; [done |].
        split; [done |]. split; [| done].
        intros j' e' Hj' Hlook'. destruct (decide (j' = i)) as [->|Hne].
        -- by simplify_eq.
        -- apply (Hfirst j' e'); [lia | done].
      * right. split; [done |]. split; [done |].
        intros j e' Hj Hlook. destruct (decide (j = i)) as [->|Hne].
        -- by simplify_eq.
        -- apply (Hnone j e'); [lia | done].
Qed.

(** The finder allocates its loop variable and runs the loop over the
    whole list. *)
Lemma finder_wp environmentName s :
  wp (finder environmentName)
     (finderPost EqualFold EnvProviderEcs 0 (length (Environments s))
                 (length (cells s)) environmentName
                 (mkState (world s) (calls s) (Environments s)
                          (cells s ++ [zeroEnvironment]) (workflow s)
                          (ecsStackParams s) (elbStackParams s)))
     s.
Proof.
  unfold wp, environmentFinder.
  change ((alloc zeroEnvironment ≫= _) s)
    with (environmentFinder_range W EqualFold EnvProviderEcs
            (CellPtr (length (cells s))) 0 (length (Environments s))
            environmentName
            (mkState (world s) (calls s) (Environments s)
                     (cells s ++ [zeroEnvironment]) (workflow s)
                     (ecsStackParams s) (elbStackParams s))).
  apply finder_range_wp; cbn; [rewrite length_app; cbn; lia | done].
Qed.

Lemma finder_not_found environmentName s :
  (∀ entry, entry ∈ Environments s →
            EqualFold (Name entry) environmentName = false) →
  ∃ s',
    finder environmentName s = (Fail (notFound environmentName), s')
    ∧ calls s' = calls s ∧ world s' = world s
    ∧ ecsStackParams s' = ecsStackParams s
    ∧ elbStackParams s' = elbStackParams s
    ∧ workflow s' = workflow s
    ∧ Environments s' = Environments s.
Proof.
  intros Hnone. pose proof (finder_wp environmentName s) as H.
  unfold wp, finderPost in H. cbn in H.
  destruct (finder environmentName s) as [r s'] eqn:E. cbn in H.
  destruct H as (HE & Hw & Hc & Hecs & Helb & _ & _ & _ & _ & _ & Hcase).
  destruct Hcase as [(j & entry & _ & Hlook & Hmatch & _)
                    | (Hr & Hwf & _)].
  - apply list_elem_of_lookup_2 in Hlook.
    rewrite (Hnone entry Hlook) in Hmatch. discriminate.
  - exists s'. by rewrite Hr.
Qed.

Lemma pipeline_stops (executor : Executor W) rest s err s' :
  executor s = (Fail err, s') →
  newPipelineExecutor (executor :: rest) s = (Fail err, s').
Proof.
  intros E. cbn [newPipelineExecutor]. unfold mbind, M_bind. by rewrite E.
Qed.

(** C4: when no environment of the configuration has a name equal to the
    target name under case folding, the pipeline built by
    [NewEnvironmentUpserter] returns the finder's error, a Warning-class
    error whose message carries the requested name; whatever stages follow
    the finder, none of them runs: the result and the final state are the
    finder's own, no collaborator has been called and the world, the two
    maps and the workflow are untouched. *)
Theorem C4_unknown_environment_warns cfg stackManager rolesetUpserter
    rolesetGetter environmentName w :
  let ctx := mkContext W cfg stackManager rolesetUpserter rolesetGetter in
  (∀ entry, entry ∈ Config_Environments cfg →
            EqualFold (Name entry) environmentName = false) →
  ∃ err s',
    NewEnvironmentUpserter W EqualFold EnvProviderEcs EnvProviderEcsFargate
      EnvProviderEc2 StackTypeVpc StackTypeTarget StackTypeLoadBalancer
      StackTypeEnv CreateStackName createTagMap ctx environmentName
      (newState W ctx w)
    = (Fail err, s')
    ∧ isWarning err = true
    ∧ Contains (message err) environmentName
    ∧ finder environmentName (newState W ctx w) = (Fail err, s')
    ∧ (∀ rest,
          newPipelineExecutor (finder environmentName :: rest)
                              (newState W ctx w)
          = (Fail err, s'))
    ∧ calls s' = [] ∧ world s' = w
    ∧ ecsStackParams s' = ∅ ∧ elbStackParams s' = ∅
    ∧ workflow s' = workflow (newState W ctx w).
Proof.
  intros ctx Hnone.
  destruct (finder_not_found environmentName (newState W ctx w) Hnone)
    as (s' & Hrun & Hcalls & Hworld & Hecs & Helb & Hwf & _).
  exists (notFound environmentName), s'.
  split; [by apply pipeline_stops |]. split; [done |].
  split; [apply Contains_middle |]. split; [done |].
  split; [intros rest; by apply pipeline_stops |]. done.
Qed.

(** C10: the finder never changes the configuration's environment list,
    whatever the list and the name: the list after the run is the list
    before it, entry by entry, an empty provider field included.  On
    success the workflow points at a cell of its own, the loop variable,
    not at an element of the list, and that cell holds the copy of a
    matching entry with the provider defaulted. *)
Theorem C10_finder_keeps_configuration environmentName s :
  let run := finder environmentName s in
  Environments run.2 = Environments s
  ∧ (run.1 = Ok tt →
     ∃ entry,
       entry ∈ Environments s
       ∧ EqualFold (Name entry) environmentName = true
       ∧ environment (workflow run.2) = Some (CellPtr (length (cells s)))
       ∧ resolved run.2 = Some (defaulted EnvProviderEcs entry)).
Proof.
  cbv zeta. pose proof (finder_wp environmentName s) as H.
  unfold wp, finderPost in H. cbn in H.
  destruct H as (HE & _ & _ & _ & _ & _ & _ & _ & _ & _ & Hcase).
  split; [done |]. intros Hok.
  destruct Hcase as [(j & entry & _ & Hlook & Hmatch & _ & Hptr & Hcell & _)
                    | (Hr & _)]; [| congruence].
  exists entry. split; [by eapply list_elem_of_lookup_2 |].
  split; [done |]. split; [done |].
  unfold resolved. by rewrite Hptr.
Qed.

(** ** The compute stage *)

Local Abbreviation dispatch :=
  (envMappingAt EnvProviderEcs EnvProviderEcsFargate EnvProviderEc2).

Lemma dispatch_table :
  EnvProviderEcs ≠ EnvProviderEcsFargate →
  EnvProviderEcs ≠ EnvProviderEc2 →
  EnvProviderEcsFargate ≠ EnvProviderEc2 →
  (dispatch EnvProviderEcs "templateName" = "env-ecs.yml"
   ∧ dispatch EnvProviderEcs "launchType" = "EC2"
   ∧ dispatch EnvProviderEcs "imagePattern" = ecsImagePattern)
  ∧ (dispatch EnvProviderEcsFargate "templateName" = "env-ecs.yml"
     ∧ dispatch EnvProviderEcsFargate "launchType" = "FARGATE"
     ∧ dispatch EnvProviderEcsFargate "imagePattern" = ecsImagePattern)
  ∧ (dispatch EnvProviderEc2 "templateName" = "env-ec2.yml"
     ∧ dispatch EnvProviderEc2 "launchType" = ""
     ∧ dispatch EnvProviderEc2 "imagePattern" = ec2ImagePattern).
Proof.
  intros H1 H2 H3. unfold envMappingAt, envMapping.
  rewrite lookup_insert_eq.
  rewrite (lookup_insert_ne _ EnvProviderEcs EnvProviderEcsFargate) by done.
  rewrite lookup_insert_eq.
  rewrite (lookup_insert_ne _ EnvProviderEcs EnvProviderEc2) by done.
  rewrite (lookup_insert_ne _ EnvProviderEcsFargate EnvProviderEc2) by done.
  rewrite lookup_singleton_eq.
  repeat split; done.
Qed.

(** What the compute stage does with the dispatch: the template it submits
    and the launch type among the submitted parameters are the table's for
    the environment's provider, and an image is only searched under the
    table's pattern. *)
Lemma env_dispatches namespace imageFinder stackUpserter stackWaiter s env
    r s' :
  resolved s = Some env →
  envStage namespace imageFinder stackUpserter stackWaiter s = (r, s') →
  (∀ stackName templateName e parameters tags roleArn err,
      CallUpsertStack stackName templateName e parameters tags roleArn err
      ∈ newCalls s s' →
      templateName = dispatch (Provider env) "templateName"
      ∧ parameters !! "LaunchType"
        = Some (dispatch (Provider env) "launchType"))
  ∧ (∀ pattern id err,
        CallFindLatestImageID pattern id err ∈ newCalls s s' →
        pattern = dispatch (Provider env) "imagePattern").
Proof.
  intros Hres. by_wp. unfold environmentUpserter.
  wp_go; new_calls; (split; [intros ? ? ? ? ? ? ? Hin | intros ? ? ? Hin]);
    in_calls Hin; simplify_eq; try done.
  all: split; [done |].
  all: by read_map.
Qed.

(** C7: the provider dispatch of the compute stage.  The three provider
    constants being distinct keys of the map literal, ECS-on-instances
    gives template [env-ecs.yml] and launch mode [EC2], ECS-on-Fargate
    [env-ecs.yml] and [FARGATE], plain EC2 [env-ec2.yml] and the empty
    launch mode; the two ECS variants share the ECS image glob and plain
    EC2 has another; and the stage submits and searches by what the table
    gives for the environment's provider. *)
Theorem C7_provider_dispatch :
  EnvProviderEcs ≠ EnvProviderEcsFargate →
  EnvProviderEcs ≠ EnvProviderEc2 →
  EnvProviderEcsFargate ≠ EnvProviderEc2 →
  (dispatch EnvProviderEcs "templateName" = "env-ecs.yml"
   ∧ dispatch EnvProviderEcs "launchType" = "EC2")
  ∧ (dispatch EnvProviderEcsFargate "templateName" = "env-ecs.yml"
     ∧ dispatch EnvProviderEcsFargate "launchType" = "FARGATE")
  ∧ (dispatch EnvProviderEc2 "templateName" = "env-ec2.yml"
     ∧ dispatch EnvProviderEc2 "launchType" = "")
  ∧ (dispatch EnvProviderEcs "imagePattern"
     = dispatch EnvProviderEcsFargate "imagePattern"
     ∧ dispatch EnvProviderEcs "imagePattern" = ecsImagePattern
     ∧ dispatch EnvProviderEc2 "imagePattern" = ec2ImagePattern
     ∧ dispatch EnvProviderEc2 "imagePattern"
       ≠ dispatch EnvProviderEcs "imagePattern")
  ∧ (∀ namespace imageFinder stackUpserter stackWaiter s env,
        resolved s = Some env →
        let run := envStage namespace imageFinder stackUpserter
                            stackWaiter s in
        (∀ stackName templateName e parameters tags roleArn err,
            CallUpsertStack stackName templateName e parameters tags
                            roleArn err ∈ newCalls s run.2 →
            templateName = dispatch (Provider env) "templateName"
            ∧ parameters !! "LaunchType"
              = Some (dispatch (Provider env) "launchType"))
        ∧ (∀ pattern id err,
              CallFindLatestImageID pattern id err ∈ newCalls s run.2 →
              pattern = dispatch (Provider env) "imagePattern")).
Proof.
  intros H1 H2 H3.
  destruct (dispatch_table H1 H2 H3)
    as ((-> & -> & ->) & (-> & -> & ->) & (-> & -> & ->)).
  do 4 (split; [done |]).
  intros namespace imageFinder stackUpserter stackWaiter s env Hres.
  cbv zeta. eapply env_dispatches; [exact Hres | apply surjective_pairing].
Qed.

(** ** The whole pipeline *)


Section AllSucceed.

Variables (rolesetUpserter : RolesetUpserter W)
          (rolesetGetter : RolesetGetter W)
          (stackManager : StackManager W).
Hypothesis HupsertCommon :
  always (eq None) (UpsertCommonRoleset W rolesetUpserter).
Hypothesis HgetCommon : always noError (GetCommonRoleset W rolesetGetter).
Hypothesis HupsertEnv :
  ∀ name, always (eq None)
                 (UpsertEnvironmentRoleset W rolesetUpserter name).
Hypothesis HgetEnv :
  ∀ name, always noError (GetEnvironmentRoleset W rolesetGetter name).
Hypothesis Hcount :
  always (eq (2, None)) (CountAZs W stackManager).
Hypothesis Hupsert :
  ∀ stackName templateName e parameters tags roleArn,
    always (eq None)
           (UpsertStack W stackManager stackName templateName e
                        parameters tags roleArn).
Hypothesis Hawait :
  ∀ stackName,
    always (completes "CREATE_COMPLETE")
           (AwaitFinalStatus W stackManager stackName).
Hypothesis Himage :
  always noError (FindLatestImageID W stackManager ecsImagePattern).
Hypothesis Hdistinct :
  EnvProviderEcs ≠ EnvProviderEcsFargate
  ∧ EnvProviderEcs ≠ EnvProviderEc2
  ∧ EnvProviderEcsFargate ≠ EnvProviderEc2.



End AllSucceed.

End Stages.

(** * The claims on the sample cloud *)

(** C2 as stated fails: the stage succeeds, the awaited outcome holds
    [sg-0a1b2c3d] under [ElbInstanceSecurityGroup], and that literal, which
    is no [<stack-name>-<output-key>] reference, is what the compute-layer
    map gets under [ElbSecurityGroup]. *)
Lemma C2_counterexample :
  ∃ s',
    Sample.elbStage "CREATE_COMPLETE"
                    (Sample.resolvedState (Sample.named "staging"))
    = (Ok tt, s')
    ∧ ecsStackParams s' !! "ElbSecurityGroup" = Some "sg-0a1b2c3d"
    ∧ Outputs (Sample.outcome "CREATE_COMPLETE") !! "ElbInstanceSecurityGroup"
      = Some "sg-0a1b2c3d"
    ∧ ¬ ∃ outputKey,
          "sg-0a1b2c3d"
          = Sample.CreateStackName "mu" "loadbalancer" "staging"
            +:+ "-" +:+ outputKey.
Proof.
  eexists. split; [vm_compute; reflexivity |].
  split; [vm_compute; reflexivity |]. split; [vm_compute; reflexivity |].
  intros [outputKey H]. vm_compute in H. discriminate.
Qed.

Lemma C2_witness :
  ∃ stack,
    last (newCalls (Sample.resolvedState (Sample.named "staging"))
                   (Sample.elbStage
                      "CREATE_COMPLETE"
                      (Sample.resolvedState (Sample.named "staging"))).2)
    = Some (CallAwaitFinalStatus
              (Sample.CreateStackName "mu" "loadbalancer"
                                      (Name (Sample.named "staging")))
              (Some stack))
    ∧ ecsStackParams
        (Sample.elbStage "CREATE_COMPLETE"
                         (Sample.resolvedState (Sample.named "staging"))).2
      !! "ElbSecurityGroup"
      = Some (mapGet (Outputs stack) "ElbInstanceSecurityGroup").
Proof.
  apply (@C2_security_group_read_from_outputs
           Sample.World "loadbalancer" Sample.CreateStackName
           Sample.createTagMap "mu" Sample.imageFinder Sample.stackUpserter
           (Sample.stackWaiter "CREATE_COMPLETE")
           (Sample.resolvedState (Sample.named "staging"))
           (Sample.named "staging")).
  - reflexivity.
  - vm_compute. reflexivity.
Defined.

(** C3 as stated fails: in the attribute-supplied branch the map submitted
    with [vpc-target.yml] has a fourth entry, [AZCount]. *)
Lemma C3_counterexample :
  ∃ s' parameters tags,
    Sample.vpcStage 2 (Sample.resolvedState (Sample.attributed "staging"))
    = (Ok tt, s')
    ∧ calls s' !! 1%nat
      = Some (CallUpsertStack "mu-target-staging" "vpc-target.yml"
                (Sample.attributed "staging") parameters tags
                "arn:aws:iam::1:role/mu-cfn" None)
    ∧ parameters !! "AZCount" = Some "2"
    ∧ parameters
      ≠ <["InstanceSubnetIds" := "subnet-c,subnet-d"]>
          (<["ElbSubnetIds" := "subnet-a,subnet-b"]>
             (<["VpcId" := "vpc-12345"]> ∅)).
Proof.
  do 3 eexists. split; [vm_compute; reflexivity |].
  split; [vm_compute; reflexivity |]. split; [vm_compute; reflexivity |].
  intros H. apply (f_equal (λ m : gmap string string, m !! "AZCount")) in H.
  vm_compute in H. discriminate.
Qed.

Lemma C3_witness :
  ∃ tags roleArn err rest,
    newCalls (Sample.resolvedState (Sample.attributed "staging"))
             (Sample.vpcStage
                2 (Sample.resolvedState (Sample.attributed "staging"))).2
    = CallCountAZs 2 None
        :: CallUpsertStack
             (Sample.CreateStackName "mu" "target"
                                     (Name (Sample.attributed "staging")))
             "vpc-target.yml" (Sample.attributed "staging")
             (targetParameters (Sample.attributed "staging") 2) tags
             roleArn err
        :: rest
    ∧ existsb isUpsertStack rest = false.
Proof.
  apply (@C3_target_parameters
           Sample.World "vpc" "target" Sample.CreateStackName
           Sample.createTagMap "mu" Sample.imageFinder Sample.stackUpserter
           (Sample.stackWaiter "CREATE_COMPLETE") (Sample.azCounter 2)
           (Sample.resolvedState (Sample.attributed "staging"))
           (Sample.attributed "staging") 2 []
           (Sample.vpcStage
              2 (Sample.resolvedState (Sample.attributed "staging"))).1).
  - reflexivity.
  - reflexivity.
  - discriminate.
  - reflexivity.
  - lia.
  - vm_compute. reflexivity.
Defined.

Lemma C4_witness :
  ∃ err s',
    Sample.upsert [Sample.named "staging"] 2 "production" = (Fail err, s')
    ∧ isWarning err = true
    ∧ Contains (message err) "production"
    ∧ environmentFinder Sample.World EqualFoldAscii "ecs" "production"
        (newState Sample.World (Sample.context [Sample.named "staging"] 2) [])
      = (Fail err, s')
    ∧ (∀ rest,
          newPipelineExecutor
            (environmentFinder Sample.World EqualFoldAscii "ecs" "production"
               :: rest)
            (newState Sample.World
                      (Sample.context [Sample.named "staging"] 2) [])
          = (Fail err, s'))
    ∧ calls s' = [] ∧ world s' = []
    ∧ ecsStackParams s' = ∅ ∧ elbStackParams s' = ∅
    ∧ workflow s'
      = workflow (newState Sample.World
                           (Sample.context [Sample.named "staging"] 2) []).
Proof.
  apply (@C4_unknown_environment_warns
           Sample.World EqualFoldAscii "ecs" "ecs-fargate" "ec2" "vpc"
           "target" "loadbalancer" "environment" Sample.CreateStackName
           Sample.createTagMap (Sample.config [Sample.named "staging"])
           (Sample.stackManager 2) Sample.rolesetUpserter
           Sample.rolesetGetter "production" []).
  intros entry Hin. apply list_elem_of_singleton in Hin. subst entry.
  reflexivity.
Defined.

Lemma C5_witness :
  ∃ azCount err,
    newCalls (Sample.resolvedState (Sample.borrowing "staging" "shared"))
             (Sample.vpcStage
                2 (Sample.resolvedState
                     (Sample.borrowing "staging" "shared"))).2
    = [CallCountAZs azCount err]
    ∧ ((Sample.vpcStage
          2 (Sample.resolvedState (Sample.borrowing "staging" "shared"))).1
       = Ok tt ↔ err = None ∧ 2 ≤ azCount)
    ∧ ((Sample.vpcStage
          2 (Sample.resolvedState (Sample.borrowing "staging" "shared"))).1
       = Ok tt →
       let s' :=
         (Sample.vpcStage
            2 (Sample.resolvedState
                 (Sample.borrowing "staging" "shared"))).2 in
       let vpcStackName :=
         Sample.CreateStackName
           (if String.eqb
                 (VpcTarget_Namespace (Sample.borrowing "staging" "shared"))
                 ""
            then "mu"
            else VpcTarget_Namespace (Sample.borrowing "staging" "shared"))
           "vpc"
           (VpcTarget_Environment (Sample.borrowing "staging" "shared")) in
       ecsStackParams s' !! "VpcId" = Some (vpcStackName +:+ "-VpcId")
       ∧ ecsStackParams s' !! "InstanceSubnetIds"
         = Some (vpcStackName +:+ "-InstanceSubnetIds")
       ∧ elbStackParams s' !! "VpcId" = Some (vpcStackName +:+ "-VpcId")
       ∧ elbStackParams s' !! "ElbSubnetIds"
         = Some (vpcStackName +:+ "-ElbSubnetIds")).
Proof.
  apply (@C5_borrowed_network
           Sample.World "vpc" "target" Sample.CreateStackName
           Sample.createTagMap "mu" Sample.imageFinder Sample.stackUpserter
           (Sample.stackWaiter "CREATE_COMPLETE") (Sample.azCounter 2)
           (Sample.resolvedState (Sample.borrowing "staging" "shared"))
           (Sample.borrowing "staging" "shared")).
  - reflexivity.
  - discriminate.
  - apply surjective_pairing.
Defined.

Example C5_sample_reference :
  ecsStackParams
    (Sample.vpcStage
       2 (Sample.resolvedState (Sample.borrowing "staging" "shared"))).2
  !! "VpcId"
  = Some "mu-vpc-shared-VpcId".
Proof. vm_compute. reflexivity. Qed.

Lemma C6_witness :
  (1 < 2 →
   ∃ msg,
     (Sample.vpcStage 1 (Sample.resolvedState (Sample.named "staging"))).1
     = Fail (Errorf msg)
     ∧ msg = "Only found " +:+ Itoa 1
             +:+ " availability zones...need at least 2"
     ∧ Contains msg (Itoa 1)
     ∧ existsb isUpsertStack
         (newCalls (Sample.resolvedState (Sample.named "staging"))
                   (Sample.vpcStage
                      1 (Sample.resolvedState (Sample.named "staging"))).2)
       = false)
  ∧ (2 ≤ 1 →
     if nonEmpty (VpcTarget_Environment (Sample.named "staging"))
     then (Sample.vpcStage
             1 (Sample.resolvedState (Sample.named "staging"))).1
          = Ok tt
     else existsb isUpsertStack
            (newCalls (Sample.resolvedState (Sample.named "staging"))
                      (Sample.vpcStage
                         1 (Sample.resolvedState (Sample.named "staging"))).2)
          = true).
Proof.
  apply (@C6_az_count_validated
           Sample.World "vpc" "target" Sample.CreateStackName
           Sample.createTagMap "mu" Sample.imageFinder Sample.stackUpserter
           (Sample.stackWaiter "CREATE_COMPLETE") (Sample.azCounter 1)
           (Sample.resolvedState (Sample.named "staging"))
           (Sample.named "staging")).
  - reflexivity.
  - apply surjective_pairing.
  - vm_compute. apply list_elem_of_here.
Defined.

Example C6_sample_message :
  (Sample.vpcStage 1 (Sample.resolvedState (Sample.named "staging"))).1
  = Fail (Errorf "Only found 1 availability zones...need at least 2").
Proof. vm_compute. reflexivity. Qed.

Lemma C7_witness :
  (envMappingAt "ecs" "ecs-fargate" "ec2" "ecs" "templateName"
   = "env-ecs.yml"
   ∧ envMappingAt "ecs" "ecs-fargate" "ec2" "ecs" "launchType" = "EC2")
  ∧ (envMappingAt "ecs" "ecs-fargate" "ec2" "ecs-fargate" "templateName"
     = "env-ecs.yml"
     ∧ envMappingAt "ecs" "ecs-fargate" "ec2" "ecs-fargate" "launchType"
       = "FARGATE")
  ∧ (envMappingAt "ecs" "ecs-fargate" "ec2" "ec2" "templateName"
     = "env-ec2.yml"
     ∧ envMappingAt "ecs" "ecs-fargate" "ec2" "ec2" "launchType" = "").
Proof.
  destruct (@C7_provider_dispatch
              Sample.World "ecs" "ecs-fargate" "ec2" "environment"
              Sample.CreateStackName Sample.createTagMap)
    as (Hecs & Hfargate & Hec2 & _).
  - discriminate.
  - discriminate.
  - discriminate.
  - exact (conj Hecs (conj Hfargate Hec2)).
Defined.



Example C8_sample_image :
  ecsStackParams
    (Sample.upsertReliably [Sample.named "staging"] 2 "Staging").2
  !! "ImageId"
  = Some "ami-ecs-0001".
Proof. vm_compute. reflexivity. Qed.

Lemma C9_witness :
  ecsStackParams
    (Sample.vpcStage 1 (Sample.resolvedState (Sample.named "staging"))).2
  = ecsStackParams (Sample.resolvedState (Sample.named "staging"))
  ∧ elbStackParams
      (Sample.vpcStage 1 (Sample.resolvedState (Sample.named "staging"))).2
    = elbStackParams (Sample.resolvedState (Sample.named "staging")).
Proof.
  apply (@C9_failure_leaves_maps
           Sample.World "vpc" "target" Sample.CreateStackName
           Sample.createTagMap "mu" Sample.imageFinder Sample.stackUpserter
           (Sample.stackWaiter "CREATE_COMPLETE") (Sample.azCounter 1)
           (Sample.resolvedState (Sample.named "staging"))
           (Errorf "Only found 1 availability zones...need at least 2")).
  vm_compute. reflexivity.
Defined.

(** * Further properties of the stages *)

Section StageBehaviour.

Context {W : Type}.
Variable EqualFold : string → string → bool.
Variables EnvProviderEcs EnvProviderEcsFargate EnvProviderEc2 : string.
Variables StackTypeVpc StackTypeTarget StackTypeLoadBalancer StackTypeEnv
  : string.
Variable CreateStackName : string → string → string → string.
Variable createTagMap : EnvironmentTags → gmap string string.

Local Abbreviation vpcStage :=
  (environmentVpcUpserter W StackTypeVpc StackTypeTarget CreateStackName
                          createTagMap).
Local Abbreviation elbStage :=
  (environmentElbUpserter W StackTypeLoadBalancer CreateStackName
                          createTagMap).
Local Abbreviation envStage :=
  (environmentUpserter W EnvProviderEcs EnvProviderEcsFargate
                       EnvProviderEc2 StackTypeEnv CreateStackName
                       createTagMap).
Local Abbreviation rolesetStage := (environmentRolesetUpserter W).
Local Abbreviation finder := (environmentFinder W EqualFold EnvProviderEcs).
Local Abbreviation dispatch :=
  (envMappingAt EnvProviderEcs EnvProviderEcsFargate EnvProviderEc2).

Implicit Types s : State W.

Lemma setProvider_back p e : setProvider (Provider e) (setProvider p e) = e.
Proof. by destruct e. Qed.

Lemma setProvider_same e : setProvider (Provider e) e = e.
Proof. by destruct e. Qed.

(** What the finder does once the first entry matching the name is known. *)
Lemma finder_first_match environmentName s j entry :
  Environments s !! j = Some entry →
  EqualFold (Name entry) environmentName = true →
  (∀ j' entry', (j' < j)%nat → Environments s !! j' = Some entry' →
                EqualFold (Name entry') environmentName = false) →
  ∃ s',
    finder environmentName s
    = (if String.eqb (Discovery_Provider entry) "consul"
       then Fail consulRejected else Ok tt, s')
    ∧ resolved s' = Some (defaulted EnvProviderEcs entry)
    ∧ Environments s' = Environments s
    ∧ calls s' = calls s.
Proof.
  intros Hentry Hmatch Hfirst.
  pose proof (finder_wp EqualFold EnvProviderEcs environmentName s) as H.
  unfold wp, finderPost in H. cbn in H.
  destruct (finder environmentName s) as [r s'] eqn:E. cbn in H.
  destruct H as (HE & _ & Hcalls & _ & _ & _ & _ & _ & _ & _ & Hcase).
  exists s'.
  destruct Hcase as [(j0 & entry0 & Hj0 & Hlook & Hmatch0 & Hfirst0 & Hptr
                      & Hcell & Hr) | (_ & _ & Hnone)].
  - assert (j0 = j) as ->.
    { destruct (Nat.lt_trichotomy j0 j) as [Hlt | [-> | Hgt]]; [| done |].
      - rewrite (Hfirst j0 entry0 Hlt Hlook) in Hmatch0. discriminate.
      - rewrite (Hfirst0 j entry) in Hmatch; [discriminate | lia | done]. }
    simplify_eq.
    split.
    + destruct Hr as [[Hne ->] | [Heq ->]].
      * apply String.eqb_neq in Hne. by rewrite Hne.
      * by rewrite Heq.
    + unfold resolved. by rewrite Hptr.
  - apply lookup_lt_Some in Hentry as Hlt.
    rewrite (Hnone j entry) in Hmatch; [discriminate | lia | done].
Qed.

(** X1: the finder takes the first entry whose name matches under case
    folding; when that entry's discovery provider is not [consul] it returns
    nil and the workflow's environment is that entry, its provider replaced
    by the ECS provider when it was empty and kept otherwise. *)
Theorem X1_finder_takes_first_match environmentName s j entry :
  Environments s !! j = Some entry →
  EqualFold (Name entry) environmentName = true →
  (∀ j' entry', (j' < j)%nat → Environments s !! j' = Some entry' →
                EqualFold (Name entry') environmentName = false) →
  Discovery_Provider entry ≠ "consul" →
  ∃ s' env,
    finder environmentName s = (Ok tt, s')
    ∧ resolved s' = Some env
    ∧ Provider env
      = (if String.eqb (Provider entry) "" then EnvProviderEcs
         else Provider entry)
    ∧ setProvider (Provider entry) env = entry.
Proof.
  intros Hentry Hmatch Hfirst Hconsul.
  destruct (finder_first_match environmentName s j entry Hentry Hmatch Hfirst)
    as (s' & Hrun & Hres & _).
  apply String.eqb_neq in Hconsul. rewrite Hconsul in Hrun.
  exists s', (defaulted EnvProviderEcs entry).
  split; [done |]. split; [done |].
  unfold defaulted.
  destruct (String.eqb (Provider entry) "");
    (split; [reflexivity | apply setProvider_back || apply setProvider_same]).
Qed.

(** X2: when the first entry matching the name has discovery provider
    [consul] the finder fails with an ordinary error, not a warning; the
    workflow has by then been given the environment (line 41 comes before
    the test), and no collaborator has been called. *)
Theorem X2_finder_rejects_consul environmentName s j entry :
  Environments s !! j = Some entry →
  EqualFold (Name entry) environmentName = true →
  (∀ j' entry', (j' < j)%nat → Environments s !! j' = Some entry' →
                EqualFold (Name entry') environmentName = false) →
  Discovery_Provider entry = "consul" →
  ∃ s',
    finder environmentName s = (Fail consulRejected, s')
    ∧ isWarning consulRejected = false
    ∧ resolved s' = Some (defaulted EnvProviderEcs entry)
    ∧ calls s' = calls s.
Proof.
  intros Hentry Hmatch Hfirst Hconsul.
  destruct (finder_first_match environmentName s j entry Hentry Hmatch Hfirst)
    as (s' & Hrun & Hres & _ & Hcalls).
  rewrite Hconsul in Hrun. by exists s'.
Qed.

(** X3: a roleset stage that returns nil has made its four calls in order,
    each answering without error: upsert and read of the common roleset,
    upsert and read of the roleset of the environment's name.  The workflow's
    CloudFormation role is then what the common roleset holds under
    [CloudFormationRoleArn], the compute-layer map has gained
    [EC2InstanceProfileArn] from the environment's roleset and nothing else,
    and the load-balancer-layer map is untouched; a key the roleset lacks
    reads as the empty string. *)
Theorem X3_roleset_success rolesetUpserter rolesetGetter s env s' :
  resolved s = Some env →
  rolesetStage rolesetUpserter rolesetGetter s = (Ok tt, s') →
  ∃ commonRoleset environmentRoleset,
    newCalls s s'
    = [ CallUpsertCommonRoleset None;
        CallGetCommonRoleset commonRoleset None;
        CallUpsertEnvironmentRoleset (Name env) None;
        CallGetEnvironmentRoleset (Name env) environmentRoleset None ]
    ∧ cloudFormationRoleArn (workflow s')
      = mapGet commonRoleset "CloudFormationRoleArn"
    ∧ ecsStackParams s'
      = <["EC2InstanceProfileArn" :=
            mapGet environmentRoleset "EC2InstanceProfileArn"]>
          (ecsStackParams s)
    ∧ elbStackParams s' = elbStackParams s
    ∧ resolved s' = Some env.
Proof.
  intros Hres Hrun.
  cut (∀ r s1,
          rolesetStage rolesetUpserter rolesetGetter s = (r, s1) →
          r = Ok tt →
          ∃ commonRoleset environmentRoleset,
            newCalls s s1
            = [ CallUpsertCommonRoleset None;
                CallGetCommonRoleset commonRoleset None;
                CallUpsertEnvironmentRoleset (Name env) None;
                CallGetEnvironmentRoleset (Name env) environmentRoleset None ]
            ∧ cloudFormationRoleArn (workflow s1)
              = mapGet commonRoleset "CloudFormationRoleArn"
            ∧ ecsStackParams s1
              = <["EC2InstanceProfileArn" :=
                    mapGet environmentRoleset "EC2InstanceProfileArn"]>
                  (ecsStackParams s)
            ∧ elbStackParams s1 = elbStackParams s
            ∧ resolved s1 = Some env).
  { intros H. by eapply H. }
  clear Hrun s'. intros r s1. by_wp. unfold environmentRolesetUpserter.
  wp_go; try discriminate; intros _; new_calls.
  do 2 eexists. by repeat split.
Qed.

(** X4: a roleset stage that returns an error returns the error of the last
    call it made, unchanged; every call before that one answered without
    error and none follows it; both parameter maps are as on entry, while the
    workflow's CloudFormation role is already set once the common roleset
    has been read. *)
Theorem X4_roleset_failure rolesetUpserter rolesetGetter s env err s' :
  resolved s = Some env →
  rolesetStage rolesetUpserter rolesetGetter s = (Fail err, s') →
  (∃ earlier failing,
      newCalls s s' = earlier ++ [failing]
      ∧ callError failing = Some err
      ∧ Forall (λ c, callError c = None) earlier)
  ∧ ecsStackParams s' = ecsStackParams s
  ∧ elbStackParams s' = elbStackParams s
  ∧ (∀ commonRoleset,
        CallGetCommonRoleset commonRoleset None ∈ newCalls s s' →
        cloudFormationRoleArn (workflow s')
        = mapGet commonRoleset "CloudFormationRoleArn").
Proof.
  intros Hres Hrun.
  cut (∀ r s1,
          rolesetStage rolesetUpserter rolesetGetter s = (r, s1) →
          r = Fail err →
          (∃ earlier failing,
              newCalls s s1 = earlier ++ [failing]
              ∧ callError failing = Some err
              ∧ Forall (λ c, callError c = None) earlier)
          ∧ ecsStackParams s1 = ecsStackParams s
          ∧ elbStackParams s1 = elbStackParams s
          ∧ (∀ commonRoleset,
                CallGetCommonRoleset commonRoleset None ∈ newCalls s s1 →
                cloudFormationRoleArn (workflow s1)
                = mapGet commonRoleset "CloudFormationRoleArn")).
  { intros H. by eapply H. }
  clear Hrun s'. intros r s1. by_wp. unfold environmentRolesetUpserter.
  wp_go; try discriminate; intros [= ->]; new_calls.
  all: split;
    [ first [ eexists [], _; split; [reflexivity |]
            | eexists [_], _; split; [reflexivity |]
            | eexists [_; _], _; split; [reflexivity |]
            | eexists [_; _; _], _; split; [reflexivity |] ];
      split; [reflexivity | repeat constructor] |].
  all: repeat (split; [done |]).
  all: intros commonRoleset Hin; in_calls Hin; by simplify_eq.
Qed.

(** X5: the load-balancer stage, given an environment, always submits
    [elb.yml] under the load-balancer stack name, with the workflow's role,
    and the map it submits is the shared load-balancer-layer map itself as
    the stage leaves it: [ServiceDiscoveryName] is the configured name or
    else [<environment>.<namespace>.local], [ElbInternal] the flag,
    [ElbCert] is written only for a configured certificate,
    [ElbDomainName] and [ElbHostName] only for a configured hosted zone (the
    host name defaulting to the environment's name), and every other key,
    the network stage's references among them, is as on entry. *)
Theorem X5_elb_parameters namespace imageFinder stackUpserter stackWaiter s
    env r s' :
  resolved s = Some env →
  elbStage namespace imageFinder stackUpserter stackWaiter s = (r, s') →
  ∃ parameters tags err rest,
    newCalls s s'
    = CallUpsertStack
        (CreateStackName namespace StackTypeLoadBalancer (Name env))
        "elb.yml" env parameters tags (cloudFormationRoleArn (workflow s))
        err
        :: rest
    ∧ elbStackParams s' = parameters
    ∧ parameters !! "ServiceDiscoveryName"
      = Some (if String.eqb (Discovery_Name env) ""
              then Name env +:+ "." +:+ namespace +:+ ".local"
              else Discovery_Name env)
    ∧ parameters !! "ElbInternal"
      = Some (FormatBool (Loadbalancer_Internal env))
    ∧ parameters !! "ElbCert"
      = (if nonEmpty (Loadbalancer_Certificate env)
         then Some (Loadbalancer_Certificate env)
         else elbStackParams s !! "ElbCert")
    ∧ parameters !! "ElbDomainName"
      = (if nonEmpty (Loadbalancer_HostedZone env)
         then Some (Loadbalancer_HostedZone env)
         else elbStackParams s !! "ElbDomainName")
    ∧ parameters !! "ElbHostName"
      = (if nonEmpty (Loadbalancer_HostedZone env)
         then Some (if String.eqb (Loadbalancer_Name env) ""
                    then Name env else Loadbalancer_Name env)
         else elbStackParams s !! "ElbHostName")
    ∧ (∀ k, k ≠ "ServiceDiscoveryName" → k ≠ "ElbInternal" →
            k ≠ "ElbCert" → k ≠ "ElbDomainName" → k ≠ "ElbHostName" →
            parameters !! k = elbStackParams s !! k).
Proof.
  intros Hres. by_wp. unfold environmentElbUpserter.
  wp_go; new_calls; do 4 eexists; (split; [reflexivity |]);
    (split; [reflexivity |]).
  all: repeat match goal with
              | H : nonEmpty _ = _ |- _ => rewrite H
              end.
  all: repeat split; try (intros k ? ? ? ? ?); read_map; try done.
  all: destruct (nonEmpty (Loadbalancer_Certificate env));
    [apply lookup_insert_eq | done].
Qed.

(** X6: a load-balancer stage that returns an error leaves the compute-layer
    map as on entry: the security group is published only after the stack
    has been classified a success. *)
Theorem X6_elb_failure_keeps_compute_map namespace imageFinder stackUpserter
    stackWaiter s err s' :
  elbStage namespace imageFinder stackUpserter stackWaiter s = (Fail err, s') →
  ecsStackParams s' = ecsStackParams s.
Proof.
  intros Hrun.
  cut (∀ r s1,
          elbStage namespace imageFinder stackUpserter stackWaiter s
          = (r, s1) →
          r ≠ Ok tt → ecsStackParams s1 = ecsStackParams s).
  { intros H. by eapply H. }
  clear Hrun s'. intros r s1. by_wp. unfold environmentElbUpserter.
  wp_go; done.
Qed.

(** X7: in the network, load-balancer and compute stages alike, an error
    answered by [UpsertStack] is returned unchanged and no
    [AwaitFinalStatus] call is made. *)
Theorem X7_upsert_error_returned :
  (∀ namespace imageFinder stackUpserter stackWaiter azCounter s,
      let run := vpcStage namespace imageFinder stackUpserter stackWaiter
                          azCounter s in
      upsertErrorReturned s run.1 run.2)
  ∧ (∀ namespace imageFinder stackUpserter stackWaiter s,
        let run := elbStage namespace imageFinder stackUpserter stackWaiter
                            s in
        upsertErrorReturned s run.1 run.2)
  ∧ (∀ namespace imageFinder stackUpserter stackWaiter s,
        let run := envStage namespace imageFinder stackUpserter stackWaiter
                            s in
        upsertErrorReturned s run.1 run.2).
Proof.
  (split; [| split]); intros;
    repeat match goal with x := _ |- _ => subst x end;
    match goal with
    | |- upsertErrorReturned ?s (?m ?s).1 _ =>
        cut (∀ r s1, m s = (r, s1) → upsertErrorReturned s r s1);
        [ intros H; eapply H; apply surjective_pairing |]
    end;
    intros r s1; by_wp;
    unfold environmentVpcUpserter, vpcBranch, environmentElbUpserter,
      environmentUpserter, upsertErrorReturned.
  all: wp_go; new_calls; intros ? ? ? ? ? ? ? Hin; in_calls Hin;
    simplify_eq; done.
Qed.

(** X8: when the environment names its image the compute stage looks no
    image up, and every map it submits holds that name under [ImageId]. *)
Theorem X8_configured_image_is_used namespace imageFinder stackUpserter
    stackWaiter s env r s' :
  resolved s = Some env →
  Cluster_ImageID env ≠ "" →
  envStage namespace imageFinder stackUpserter stackWaiter s = (r, s') →
  existsb isFindLatestImageID (newCalls s s') = false
  ∧ ∀ stackName templateName e parameters tags roleArn err,
      CallUpsertStack stackName templateName e parameters tags roleArn err
      ∈ newCalls s s' →
      parameters !! "ImageId" = Some (Cluster_ImageID env).
Proof.
  intros Hres Himg.
  assert (nonEmpty (Cluster_ImageID env) = true) as Himg'
    by (unfold nonEmpty; by apply negb_true_iff, String.eqb_neq).
  by_wp. unfold environmentUpserter.
  wp_go; new_calls; (split; [reflexivity |]);
    intros ? ? ? ? ? ? ? Hin; in_calls Hin; simplify_eq; by read_map.
Qed.

(** X9: when the environment names no image and the lookup answers an
    error, the compute stage returns that error, the lookup is the only call
    it has made, so nothing is submitted, and the id the lookup answered
    beside the error has been written under [ImageId] of the shared
    compute-layer map (line 285 assigns before the test). *)
Theorem X9_image_lookup_error namespace imageFinder stackUpserter stackWaiter
    s env id err w r s' :
  resolved s = Some env →
  Cluster_ImageID env = "" →
  imageFinder (dispatch (Provider env) "imagePattern") (world s)
  = ((id, Some err), w) →
  envStage namespace imageFinder stackUpserter stackWaiter s = (r, s') →
  r = Fail err
  ∧ newCalls s s'
    = [CallFindLatestImageID (dispatch (Provider env) "imagePattern") id
                             (Some err)]
  ∧ ecsStackParams s' !! "ImageId" = Some id.
Proof.
  intros Hres Himg Hlookup.
  assert (nonEmpty (Cluster_ImageID env) = false) as Himg'
    by (by rewrite Himg).
  by_wp. unfold environmentUpserter.
  wp_go; new_calls. repeat split. by read_map.
Qed.

Lemma dispatch_unknown provider key :
  provider ≠ EnvProviderEcs → provider ≠ EnvProviderEcsFargate →
  provider ≠ EnvProviderEc2 →
  dispatch provider key = "".
Proof.
  intros H1 H2 H3. unfold envMappingAt, envMapping.
  rewrite !lookup_insert_ne by done.
  by rewrite lookup_singleton_ne.
Qed.

(** X10: for a provider that is none of the three constants the dispatch
    gives empty strings and the compute stage goes on with them: the
    template it submits is named by the empty string, the launch type among
    the parameters is empty, and an image is searched under the empty
    pattern. *)
Theorem X10_unknown_provider namespace imageFinder stackUpserter stackWaiter
    s env r s' :
  resolved s = Some env →
  Provider env ≠ EnvProviderEcs →
  Provider env ≠ EnvProviderEcsFargate →
  Provider env ≠ EnvProviderEc2 →
  envStage namespace imageFinder stackUpserter stackWaiter s = (r, s') →
  (∀ stackName templateName e parameters tags roleArn err,
      CallUpsertStack stackName templateName e parameters tags roleArn err
      ∈ newCalls s s' →
      templateName = "" ∧ parameters !! "LaunchType" = Some "")
  ∧ (∀ pattern id err,
        CallFindLatestImageID pattern id err ∈ newCalls s s' →
        pattern = "")
  ∧ (r = Ok tt → existsb isUpsertStack (newCalls s s') = true).
Proof.
  intros Hres H1 H2 H3 Hrun.
  destruct (env_dispatches EnvProviderEcs EnvProviderEcsFargate
              EnvProviderEc2 StackTypeEnv CreateStackName createTagMap
              namespace imageFinder stackUpserter stackWaiter s env r s'
              Hres Hrun) as [Hup Himg].
  split; [| split].
  - intros ? ? ? ? ? ? ? Hin. destruct (Hup _ _ _ _ _ _ _ Hin) as [-> ->].
    by rewrite !dispatch_unknown.
  - intros ? ? ? Hin. rewrite (Himg _ _ _ Hin). by apply dispatch_unknown.
  - revert Hrun. clear Hup Himg. by_wp. unfold environmentUpserter.
    wp_go; try discriminate; intros _; new_calls; reflexivity.
Qed.

Lemma lookup_if_insert_eq (b : bool) (k v : string)
    (m : gmap string string) :
  (if b then <[k := v]> else id) m !! k = if b then Some v else m !! k.
Proof. destruct b; [apply lookup_insert_eq | done]. Qed.

Lemma lookup_if_id_insert_eq (b : bool) (k v : string)
    (m : gmap string string) :
  (if b then id else <[k := v]>) m !! k = if b then m !! k else Some v.
Proof. destruct b; [done | apply lookup_insert_eq]. Qed.

(** X11: the optional parameters of the compute stage.  In every map the
    stage submits, [SshAllow] is the configured CIDR or else [0.0.0.0/0];
    instance type, user data, image OS type, key name and HTTP proxy are
    written only when configured non-empty, and desired, minimum and maximum
    capacity and the two target reservations only when configured non-zero,
    in decimal; a key that is not written keeps whatever the shared map held
    for it on entry. *)
Theorem X11_optional_parameters namespace imageFinder stackUpserter
    stackWaiter s env r s' stackName templateName e parameters tags roleArn
    err :
  resolved s = Some env →
  envStage namespace imageFinder stackUpserter stackWaiter s = (r, s') →
  CallUpsertStack stackName templateName e parameters tags roleArn err
  ∈ newCalls s s' →
  let held k := ecsStackParams s !! k in
  parameters !! "SshAllow"
  = Some (if nonEmpty (Cluster_SSHAllow env) then Cluster_SSHAllow env
          else "0.0.0.0/0")
  ∧ parameters !! "InstanceType"
    = optionalString (Cluster_InstanceType env) (held "InstanceType")
  ∧ parameters !! "ExtraUserData"
    = optionalString (Cluster_ExtraUserData env) (held "ExtraUserData")
  ∧ parameters !! "ImageOsType"
    = optionalString (Cluster_ImageOsType env) (held "ImageOsType")
  ∧ parameters !! "KeyName"
    = optionalString (Cluster_KeyName env) (held "KeyName")
  ∧ parameters !! "HttpProxy"
    = optionalString (Cluster_HTTPProxy env) (held "HttpProxy")
  ∧ parameters !! "DesiredCapacity"
    = optionalInt (Cluster_DesiredCapacity env) (held "DesiredCapacity")
  ∧ parameters !! "MinSize"
    = optionalInt (Cluster_MinSize env) (held "MinSize")
  ∧ parameters !! "MaxSize"
    = optionalInt (Cluster_MaxSize env) (held "MaxSize")
  ∧ parameters !! "TargetCPUReservation"
    = optionalInt (Cluster_TargetCPUReservation env)
                  (held "TargetCPUReservation")
  ∧ parameters !! "TargetMemoryReservation"
    = optionalInt (Cluster_TargetMemoryReservation env)
                  (held "TargetMemoryReservation").
Proof.
  intros Hres. by_wp. unfold environmentUpserter, optionalString, optionalInt.
  wp_go; new_calls; intros Hin; in_calls Hin; simplify_eq; cbv zeta.
  all: repeat split;
    repeat first
      [ rewrite lookup_if_insert_eq
      | rewrite lookup_if_id_insert_eq
      | rewrite lookup_insert_eq
      | rewrite lookup_insert_ne by done
      | rewrite lookup_if_insert_ne by done
      | rewrite lookup_if_id_insert_ne by done ];
    try reflexivity.
Qed.

(** X12: the managed-network branch.  When the environment names neither a
    target environment nor a target VPC, every submission of the network
    stage is the template [vpc.yml] under the stack name of the namespace,
    the network stack type and the environment's name; its parameters carry
    [SshAllow] (the configured CIDR or [0.0.0.0/0]), [ElbInternal] as
    [true]/[false], the instance tenancy only when configured, the
    availability-zone count that was fetched (at least 2), and no [VpcId];
    the bastion key name and image id are there together or not at all:
    with a key name configured the image id is the one the lookup for the EC2
    pattern gave, without one no image is looked up. *)
Theorem X12_managed_network namespace imageFinder stackUpserter stackWaiter
    azCounter s env r s' stackName templateName e parameters tags roleArn
    err :
  resolved s = Some env →
  VpcTarget_Environment env = "" →
  VpcTarget_VpcID env = "" →
  vpcStage namespace imageFinder stackUpserter stackWaiter azCounter s
  = (r, s') →
  CallUpsertStack stackName templateName e parameters tags roleArn err
  ∈ newCalls s s' →
  stackName = CreateStackName namespace StackTypeVpc (Name env)
  ∧ templateName = "vpc.yml"
  ∧ parameters !! "SshAllow"
    = Some (if nonEmpty (Cluster_SSHAllow env) then Cluster_SSHAllow env
            else "0.0.0.0/0")
  ∧ parameters !! "ElbInternal"
    = Some (FormatBool (Loadbalancer_Internal env))
  ∧ parameters !! "InstanceTenancy"
    = (if nonEmpty (Cluster_InstanceTenancy env)
       then Some (Cluster_InstanceTenancy env) else None)
  ∧ parameters !! "VpcId" = None
  ∧ (∃ azCount,
       CallCountAZs azCount None ∈ newCalls s s' ∧ 2 ≤ azCount
       ∧ parameters !! "AZCount" = Some (Itoa azCount))
  ∧ (if nonEmpty (Cluster_KeyName env)
     then parameters !! "BastionKeyName" = Some (Cluster_KeyName env)
          ∧ ∃ id,
              CallFindLatestImageID ec2ImagePattern id None
              ∈ newCalls s s'
              ∧ parameters !! "BastionImageId" = Some id
     else parameters !! "BastionKeyName" = None
          ∧ parameters !! "BastionImageId" = None
          ∧ existsb isFindLatestImageID (newCalls s s') = false).
Proof.
  intros Hres Hb Ht.
  assert (nonEmpty (VpcTarget_Environment env) = false) as Hb'
    by (by rewrite Hb).
  assert (nonEmpty (VpcTarget_VpcID env) = false) as Ht'
    by (by rewrite Ht).
  by_wp. unfold environmentVpcUpserter, vpcBranch.
  wp_go; new_calls; intros Hin; in_calls Hin; simplify_eq.
  all: do 2 (split; [reflexivity |]).
  all: split;
    [ read_map; by destruct (nonEmpty (Cluster_InstanceTenancy _)),
                           (nonEmpty (Cluster_SSHAllow _)) |].
  all: split; [by read_map |].
  all: split;
    [ read_map; by destruct (nonEmpty (Cluster_InstanceTenancy _)),
                           (nonEmpty (Cluster_SSHAllow _)) |].
  all: split;
    [ read_map; by destruct (nonEmpty (Cluster_InstanceTenancy _)),
                           (nonEmpty (Cluster_SSHAllow _)) |].
  all: split;
    [ eexists; split;
      [ repeat first [ apply list_elem_of_here
                     | apply list_elem_of_further ]
      | split; [lia | by read_map] ] |].
  all: repeat split; try (read_map;
         by destruct (nonEmpty (Cluster_InstanceTenancy _)),
                     (nonEmpty (Cluster_SSHAllow _))).
  all: eexists; split;
    [ repeat first [ apply list_elem_of_here
                   | apply list_elem_of_further ]
    | by read_map ].
Qed.

(** X13: when the managed branch has a key name and the lookup of the
    bastion image fails, the stage returns that error at once: the lookup is
    the only call made, so the availability zones are not counted and
    nothing is submitted, and the two shared maps are as on entry. *)
Theorem X13_bastion_image_error namespace imageFinder stackUpserter
    stackWaiter azCounter s env id err w r s' :
  resolved s = Some env →
  VpcTarget_Environment env = "" →
  VpcTarget_VpcID env = "" →
  Cluster_KeyName env ≠ "" →
  imageFinder ec2ImagePattern (world s) = ((id, Some err), w) →
  vpcStage namespace imageFinder stackUpserter stackWaiter azCounter s
  = (r, s') →
  r = Fail err
  ∧ newCalls s s' = [CallFindLatestImageID ec2ImagePattern id (Some err)]
  ∧ world s' = w
  ∧ ecsStackParams s' = ecsStackParams s
  ∧ elbStackParams s' = elbStackParams s.
Proof.
  intros Hres Hb Ht Hkey Hlookup.
  assert (nonEmpty (VpcTarget_Environment env) = false) as Hb'
    by (by rewrite Hb).
  assert (nonEmpty (VpcTarget_VpcID env) = false) as Ht'
    by (by rewrite Ht).
  assert (nonEmpty (Cluster_KeyName env) = true) as Hkey'
    by (unfold nonEmpty; by apply negb_true_iff, String.eqb_neq).
  by_wp. unfold environmentVpcUpserter, vpcBranch.
  wp_go; by new_calls.
Qed.

(** X14: when the count of availability zones itself fails, in any branch
    of the network stage, the stage returns the counter's error whatever
    count came with it; that call is the last one made and nothing is
    submitted. *)
Theorem X14_az_count_error namespace imageFinder stackUpserter stackWaiter
    azCounter s env r s' azCount err :
  resolved s = Some env →
  vpcStage namespace imageFinder stackUpserter stackWaiter azCounter s
  = (r, s') →
  CallCountAZs azCount (Some err) ∈ newCalls s s' →
  r = Fail err
  ∧ last (newCalls s s') = Some (CallCountAZs azCount (Some err))
  ∧ existsb isUpsertStack (newCalls s s') = false.
Proof.
  intros Hres. by_wp. unfold environmentVpcUpserter, vpcBranch.
  wp_go; new_calls; intros Hin; in_calls Hin; by simplify_eq.
Qed.

(** X15: whenever the network stage returns nil, in any of its three
    branches, there is one stack name under which everything happened: the
    two shared maps are the maps on entry with the four references written
    over them, each that name, a dash and the output key, and any template
    submitted and any stack awaited went under that same name.  The name is
    built with the target stack type in the attribute-supplied branch and
    with the network stack type in the two others. *)
Theorem X15_network_references namespace imageFinder stackUpserter
    stackWaiter azCounter s env s' :
  resolved s = Some env →
  vpcStage namespace imageFinder stackUpserter stackWaiter azCounter s
  = (Ok tt, s') →
  ∃ vpcStackName,
    vpcStackName
    = (if nonEmpty (VpcTarget_Environment env)
       then CreateStackName
              (if String.eqb (VpcTarget_Namespace env) "" then namespace
               else VpcTarget_Namespace env)
              StackTypeVpc (VpcTarget_Environment env)
       else if nonEmpty (VpcTarget_VpcID env)
       then CreateStackName namespace StackTypeTarget (Name env)
       else CreateStackName namespace StackTypeVpc (Name env))
    ∧ ecsStackParams s'
      = <["InstanceSubnetIds" := vpcStackName +:+ "-InstanceSubnetIds"]>
          (<["VpcId" := vpcStackName +:+ "-VpcId"]> (ecsStackParams s))
    ∧ elbStackParams s'
      = <["ElbSubnetIds" := vpcStackName +:+ "-ElbSubnetIds"]>
          (<["VpcId" := vpcStackName +:+ "-VpcId"]> (elbStackParams s))
    ∧ (∀ stackName templateName e parameters tags roleArn err,
          CallUpsertStack stackName templateName e parameters tags roleArn
                          err ∈ newCalls s s' →
          stackName = vpcStackName)
    ∧ (∀ stackName outcome,
          CallAwaitFinalStatus stackName outcome ∈ newCalls s s' →
          stackName = vpcStackName)
    ∧ resolved s' = Some env.
Proof.
  intros Hres Hrun.
  cut (∀ r s1,
          vpcStage namespace imageFinder stackUpserter stackWaiter
                   azCounter s = (r, s1) →
          r = Ok tt →
          ∃ vpcStackName,
            vpcStackName
            = (if nonEmpty (VpcTarget_Environment env)
               then CreateStackName
                      (if String.eqb (VpcTarget_Namespace env) ""
                       then namespace else VpcTarget_Namespace env)
                      StackTypeVpc (VpcTarget_Environment env)
               else if nonEmpty (VpcTarget_VpcID env)
               then CreateStackName namespace StackTypeTarget (Name env)
               else CreateStackName namespace StackTypeVpc (Name env))
            ∧ ecsStackParams s1
              = <["InstanceSubnetIds" :=
                    vpcStackName +:+ "-InstanceSubnetIds"]>
                  (<["VpcId" := vpcStackName +:+ "-VpcId"]>
                     (ecsStackParams s))
            ∧ elbStackParams s1
              = <["ElbSubnetIds" := vpcStackName +:+ "-ElbSubnetIds"]>
                  (<["VpcId" := vpcStackName +:+ "-VpcId"]>
                     (elbStackParams s))
            ∧ (∀ stackName templateName e parameters tags roleArn err,
                  CallUpsertStack stackName templateName e parameters tags
                                  roleArn err ∈ newCalls s s1 →
                  stackName = vpcStackName)
            ∧ (∀ stackName outcome,
                  CallAwaitFinalStatus stackName outcome ∈ newCalls s s1 →
                  stackName = vpcStackName)
            ∧ resolved s1 = Some env).
  { intros H. by eapply H. }
  clear Hrun s'. intros r s1.
  by_wp. unfold environmentVpcUpserter, vpcBranch.
  wp_go; try discriminate; intros _; new_calls.
  all: repeat match goal with H : nonEmpty _ = _ |- _ => rewrite H end.
  all: eexists; split; [reflexivity |].
  all: do 2 (split; [reflexivity |]).
  all: split; [intros * Hin; in_calls Hin; by simplify_eq |].
  all: split; [intros * Hin; in_calls Hin; by simplify_eq |].
  all: exact Hres.
Qed.

(** X16: what goes with every template.  In each of the three stack stages,
    every submission passes the workflow's environment itself, the role ARN
    the workflow holds on entry, and the tags made from the environment's
    name and provider, the workflow's revision and repository name, and the
    stage's stack type: the network type for the network stage (also when
    the stack is named with the target type), the load-balancer type and
    the environment type for the two others. *)
Theorem X16_tags_and_role :
  (∀ namespace imageFinder stackUpserter stackWaiter azCounter s env r s'
     stackName templateName e parameters tags roleArn err,
      resolved s = Some env →
      vpcStage namespace imageFinder stackUpserter stackWaiter azCounter s
      = (r, s') →
      CallUpsertStack stackName templateName e parameters tags roleArn err
      ∈ newCalls s s' →
      e = env
      ∧ tags = createTagMap
                 (mkEnvironmentTags (Name env) StackTypeVpc (Provider env)
                    (codeRevision (workflow s)) (repoName (workflow s)))
      ∧ roleArn = cloudFormationRoleArn (workflow s))
  ∧ (∀ namespace imageFinder stackUpserter stackWaiter s env r s'
       stackName templateName e parameters tags roleArn err,
        resolved s = Some env →
        elbStage namespace imageFinder stackUpserter stackWaiter s
        = (r, s') →
        CallUpsertStack stackName templateName e parameters tags roleArn err
        ∈ newCalls s s' →
        e = env
        ∧ stackName
          = CreateStackName namespace StackTypeLoadBalancer (Name env)
        ∧ tags = createTagMap
                   (mkEnvironmentTags (Name env) StackTypeLoadBalancer
                      (Provider env) (codeRevision (workflow s))
                      (repoName (workflow s)))
        ∧ roleArn = cloudFormationRoleArn (workflow s))
  ∧ (∀ namespace imageFinder stackUpserter stackWaiter s env r s'
       stackName templateName e parameters tags roleArn err,
        resolved s = Some env →
        envStage namespace imageFinder stackUpserter stackWaiter s
        = (r, s') →
        CallUpsertStack stackName templateName e parameters tags roleArn err
        ∈ newCalls s s' →
        e = env
        ∧ stackName = CreateStackName namespace StackTypeEnv (Name env)
        ∧ tags = createTagMap
                   (mkEnvironmentTags (Name env) StackTypeEnv
                      (Provider env) (codeRevision (workflow s))
                      (repoName (workflow s)))
        ∧ roleArn = cloudFormationRoleArn (workflow s)).
Proof.
  split; [| split].
  - intros * Hres. by_wp. unfold environmentVpcUpserter, vpcBranch.
    wp_go; new_calls; intros Hin; in_calls Hin; by simplify_eq.
  - intros * Hres. by_wp. unfold environmentElbUpserter.
    wp_go; new_calls; intros Hin; in_calls Hin; by simplify_eq.
  - intros * Hres. by_wp. unfold environmentUpserter.
    wp_go; new_calls; intros Hin; in_calls Hin; by simplify_eq.
Qed.

Section Pipeline.

Variables (rolesetUpserter : RolesetUpserter W)
          (rolesetGetter : RolesetGetter W)
          (stackManager : StackManager W).

Local Abbreviation laterStages namespace :=
  [ rolesetStage rolesetUpserter rolesetGetter;
    vpcStage namespace (FindLatestImageID W stackManager)
      (UpsertStack W stackManager) (AwaitFinalStatus W stackManager)
      (CountAZs W stackManager);
    elbStage namespace (FindLatestImageID W stackManager)
      (UpsertStack W stackManager) (AwaitFinalStatus W stackManager);
    envStage namespace (FindLatestImageID W stackManager)
      (UpsertStack W stackManager) (AwaitFinalStatus W stackManager) ].

(** The network stack the pipeline submits for [env], if any. *)
Local Abbreviation plannedNetwork namespace env :=
  (if nonEmpty (VpcTarget_Environment env) then []
   else if nonEmpty (VpcTarget_VpcID env)
   then [CreateStackName namespace StackTypeTarget (Name env)]
   else [CreateStackName namespace StackTypeVpc (Name env)]).

(** The stack names the pipeline submits for [env], in order, when every
    stage gets to submit. *)
Local Abbreviation plannedStacks namespace env :=
  (plannedNetwork namespace env
   ++ [CreateStackName namespace StackTypeLoadBalancer (Name env);
       CreateStackName namespace StackTypeEnv (Name env)]).

(** Brings a goal on a stage's added calls to the list of those calls. *)
Ltac added_calls :=
  eexists; split;
  [ cbn [calls]; rewrite <- ?app_assoc; cbn [app];
    first [ reflexivity | symmetry; apply app_nil_r ] |];
  cbn [submitted omap list_omap].

Ltac stack_stage :=
  unfold stackStagePost; wp_go;
  (split; [done |]); (split; [done |]); (split; [done |]);
  added_calls;
  (split; [repeat apply prefix_cons; apply prefix_nil |]);
  (split; [try discriminate; try (intros _; reflexivity) |]);
  intros * Hin; in_calls Hin; simplify_eq;
  (split; [done |]); (split; [done |]);
  eexists; (split; [apply list_elem_of_here | reflexivity]).

Lemma vpc_post namespace imageFinder stackUpserter stackWaiter azCounter s
    env :
  resolved s = Some env →
  wp (vpcStage namespace imageFinder stackUpserter stackWaiter azCounter)
     (stackStagePost createTagMap [StackTypeVpc]
                     (plannedNetwork namespace env) env s)
     s.
Proof.
  intros Hres. unfold environmentVpcUpserter, vpcBranch. stack_stage.
Qed.

Lemma elb_post namespace imageFinder stackUpserter stackWaiter s env :
  resolved s = Some env →
  wp (elbStage namespace imageFinder stackUpserter stackWaiter)
     (stackStagePost createTagMap [StackTypeLoadBalancer]
        [CreateStackName namespace StackTypeLoadBalancer (Name env)] env s)
     s.
Proof.
  intros Hres. unfold environmentElbUpserter. stack_stage.
Qed.

Lemma env_post namespace imageFinder stackUpserter stackWaiter s env :
  resolved s = Some env →
  wp (envStage namespace imageFinder stackUpserter stackWaiter)
     (stackStagePost createTagMap [StackTypeEnv]
        [CreateStackName namespace StackTypeEnv (Name env)] env s)
     s.
Proof.
  intros Hres. unfold environmentUpserter. stack_stage.
Qed.

Lemma roleset_post s env :
  resolved s = Some env →
  wp (rolesetStage rolesetUpserter rolesetGetter)
     (λ r s',
        r ≠ Panic
        ∧ resolved s' = Some env
        ∧ codeRevision (workflow s') = codeRevision (workflow s)
        ∧ repoName (workflow s') = repoName (workflow s)
        ∧ ∃ log,
            calls s' = calls s ++ log
            ∧ submitted log = []
            ∧ (r = Ok tt →
               ∃ commonRoleset,
                 CallGetCommonRoleset commonRoleset None ∈ log
                 ∧ cloudFormationRoleArn (workflow s')
                   = mapGet commonRoleset "CloudFormationRoleArn"))
     s.
Proof.
  intros Hres. unfold environmentRolesetUpserter.
  wp_go; (split; [done |]); (split; [done |]); (split; [done |]);
    (split; [done |]); added_calls; (split; [reflexivity |]);
    try discriminate.
  intros _. eexists. split; [| reflexivity].
  repeat first [apply list_elem_of_here | apply list_elem_of_further].
Qed.

Lemma submitted_app (log1 log2 : list Call) :
  submitted (log1 ++ log2) = submitted log1 ++ submitted log2.
Proof. apply omap_app. Qed.

Lemma submitted_upsert (log : list Call) stackName templateName e parameters
    tags roleArn err :
  CallUpsertStack stackName templateName e parameters tags roleArn err
  ∈ log →
  stackName ∈ submitted log.
Proof. intros Hin. apply list_elem_of_omap. by eexists. Qed.

(** Stack stages in sequence. *)
Lemma stack_stages_seq (stage rest : M W unit) types1 types2 planned1
    planned2 env s :
  wp stage (stackStagePost createTagMap types1 planned1 env s) s →
  (∀ s1, workflow s1 = workflow s → resolved s1 = Some env →
         wp rest (stackStagePost createTagMap types2 planned2 env s1) s1) →
  wp (stage;; rest)
     (stackStagePost createTagMap (types1 ++ types2) (planned1 ++ planned2)
                     env s)
     s.
Proof.
  intros Hstage Hrest. apply wp_bind. eapply wp_conseq; [exact Hstage |].
  intros r1 s1 (Hp1 & Hwf1 & Hres1 & l1 & Hl1 & Hpre1 & Hall1 & Hup1).
  unfold andThen. destruct r1 as [[]|err|]; [| | done].
  - eapply wp_conseq; [apply (Hrest s1 Hwf1 Hres1) |].
    intros r2 s2 (Hp2 & Hwf2 & Hres2 & l2 & Hl2 & Hpre2 & Hall2 & Hup2).
    split; [done |]. split; [congruence |]. split; [done |].
    exists (l1 ++ l2). split; [by rewrite Hl2, Hl1, app_assoc |].
    rewrite submitted_app, (Hall1 eq_refl).
    split; [by apply prefix_app |].
    split; [intros Hr; by rewrite (Hall2 Hr) |].
    intros * Hin. apply elem_of_app in Hin as [Hin|Hin].
    + destruct (Hup1 _ _ _ _ _ _ _ Hin) as (-> & -> & st & Hst & ->).
      do 2 (split; [done |]). exists st. split; [| done].
      apply elem_of_app. by left.
    + destruct (Hup2 _ _ _ _ _ _ _ Hin) as (-> & -> & st & Hst & ->).
      rewrite Hwf1. do 2 (split; [done |]). exists st. split; [| done].
      apply elem_of_app. by right.
  - split; [done |]. split; [done |]. split; [done |].
    exists l1. split; [done |]. split; [by apply prefix_app_r |].
    split; [done |].
    intros * Hin.
    destruct (Hup1 _ _ _ _ _ _ _ Hin) as (-> & -> & st & Hst & ->).
    do 2 (split; [done |]). exists st. split; [| done].
    apply elem_of_app. by left.
Qed.

(** The three stack stages, whatever the collaborators answer. *)
Lemma stack_stages_post namespace s env :
  resolved s = Some env →
  wp (newPipelineExecutor (tail (laterStages namespace)))
     (stackStagePost createTagMap
        [StackTypeVpc; StackTypeLoadBalancer; StackTypeEnv]
        (plannedStacks namespace env) env s)
     s.
Proof.
  intros Hres. cbn [newPipelineExecutor tail].
  apply (stack_stages_seq _ _ [StackTypeVpc]
                          [StackTypeLoadBalancer; StackTypeEnv]);
    [by apply vpc_post |].
  intros s1 Hwf1 Hres1.
  apply (stack_stages_seq _ _ [StackTypeLoadBalancer] [StackTypeEnv]
                          [_] [_]);
    [by apply elb_post |].
  intros s2 Hwf2 Hres2.
  rewrite <- (app_nil_r [StackTypeEnv]).
  rewrite <- (app_nil_r [CreateStackName namespace StackTypeEnv (Name env)]).
  apply stack_stages_seq; [by apply env_post |].
  intros s3 Hwf3 Hres3. apply wp_ret.
  split; [done |]. split; [done |]. split; [done |].
  exists []. split; [by rewrite app_nil_r |]. split; [done |].
  split; [done |]. intros * Hin. by apply elem_of_nil in Hin.
Qed.

(** The four stages after the finder, whatever the collaborators answer. *)
Lemma after_finder_any namespace s env :
  resolved s = Some env →
  wp (newPipelineExecutor (laterStages namespace))
     (λ r s',
        r ≠ Panic
        ∧ (∀ stackName templateName e parameters tags roleArn err,
              CallUpsertStack stackName templateName e parameters tags
                              roleArn err ∈ newCalls s s' →
              e = env
              ∧ (∃ commonRoleset earlier later,
                    newCalls s s' = earlier ++ later
                    ∧ CallGetCommonRoleset commonRoleset None ∈ earlier
                    ∧ CallUpsertStack stackName templateName e parameters
                                      tags roleArn err ∈ later
                    ∧ roleArn
                      = mapGet commonRoleset "CloudFormationRoleArn")
              ∧ ∃ stackType,
                  stackType
                  ∈ [StackTypeVpc; StackTypeLoadBalancer; StackTypeEnv]
                  ∧ tags = createTagMap
                             (mkEnvironmentTags
                                (Name env) stackType (Provider env)
                                (codeRevision (workflow s))
                                (repoName (workflow s))))
        ∧ submitted (newCalls s s') `prefix_of` plannedStacks namespace env
        ∧ (r = Ok tt →
           submitted (newCalls s s') = plannedStacks namespace env))
     s.
Proof.
  intros Hres.
  cbn [newPipelineExecutor]. apply wp_bind. eapply wp_conseq; [by apply roleset_post |].
  intros r1 s1 (Hp1 & Hres1 & Hrev & Hrepo & l1 & Hl1 & Hsub1 & Hrole).
  unfold andThen. destruct r1 as [[]|err|]; [| | done].
  - destruct (Hrole eq_refl) as (commonRoleset & Hcommon & Harn).
    eapply wp_conseq; [apply (stack_stages_post namespace s1 env Hres1) |].
    intros r2 s2 (Hp2 & Hwf2 & Hres2 & l2 & Hl2 & Hpre2 & Hall2 & Hup2).
    assert (newCalls s s2 = l1 ++ l2) as ->.
    { unfold newCalls. by rewrite Hl2, Hl1, <- app_assoc, drop_app_length. }
    rewrite submitted_app, Hsub1. cbn [app].
    split; [done |]. split; [| done].
    intros * Hin. apply elem_of_app in Hin as [Hin|Hin].
    + apply submitted_upsert in Hin. rewrite Hsub1 in Hin.
      by apply elem_of_nil in Hin.
    + destruct (Hup2 _ _ _ _ _ _ _ Hin) as (-> & -> & st & Hst & ->).
      split; [done |].
      split; [by exists commonRoleset, l1, l2 |].
      exists st. split; [done |]. by rewrite Hrev, Hrepo.
  - assert (newCalls s s1 = l1) as ->.
    { unfold newCalls. by rewrite Hl1, drop_app_length. }
    split; [done |]. rewrite Hsub1.
    split; [| split; [apply prefix_nil | done]].
    intros * Hin. apply submitted_upsert in Hin. rewrite Hsub1 in Hin.
    by apply elem_of_nil in Hin.
Qed.

Local Abbreviation pipeline ctx environmentName :=
  (NewEnvironmentUpserter W EqualFold EnvProviderEcs EnvProviderEcsFargate
     EnvProviderEc2 StackTypeVpc StackTypeTarget StackTypeLoadBalancer
     StackTypeEnv CreateStackName createTagMap ctx environmentName).

(** The pipeline as a whole: either the finder fails and nothing has been
    called, or it has settled on an entry of the configuration that
    matches the name and the later stages have run on the copy with the
    provider defaulted. *)
Lemma pipeline_wp cfg environmentName w :
  let ctx := mkContext W cfg stackManager rolesetUpserter rolesetGetter in
  wp (pipeline ctx environmentName)
     (λ r s',
        r ≠ Panic
        ∧ ((∃ err, r = Fail err ∧ calls s' = [])
           ∨ ∃ entry,
               entry ∈ Config_Environments cfg
               ∧ EqualFold (Name entry) environmentName = true
               ∧ let env := defaulted EnvProviderEcs entry in
                 (∀ stackName templateName e parameters tags roleArn err,
                     CallUpsertStack stackName templateName e parameters
                                     tags roleArn err ∈ calls s' →
                     e = env
                     ∧ (∃ commonRoleset earlier later,
                           calls s' = earlier ++ later
                           ∧ CallGetCommonRoleset commonRoleset None
                             ∈ earlier
                           ∧ CallUpsertStack stackName templateName e
                                             parameters tags roleArn err
                             ∈ later
                           ∧ roleArn
                             = mapGet commonRoleset
                                      "CloudFormationRoleArn")
                     ∧ ∃ stackType,
                         stackType
                         ∈ [StackTypeVpc; StackTypeLoadBalancer;
                            StackTypeEnv]
                         ∧ tags = createTagMap
                                    (mkEnvironmentTags
                                       (Name env) stackType (Provider env)
                                       (Repo_Revision cfg)
                                       (Repo_Slug cfg)))
                 ∧ submitted (calls s')
                   `prefix_of` plannedStacks (Config_Namespace cfg) env
                 ∧ (r = Ok tt →
                    submitted (calls s')
                    = plannedStacks (Config_Namespace cfg) env)))
     (newState W ctx w).
Proof.
  intros ctx. unfold NewEnvironmentUpserter.
  cbn [newPipelineExecutor ctx ctx_Config ctx_StackManager
       ctx_RolesetUpserter ctx_RolesetGetter].
  apply wp_bind. eapply wp_conseq; [apply finder_wp |].
  intros r s1. unfold finderPost. cbn.
  intros (_ & _ & Hcalls & _ & _ & _ & _ & Hrev & Hrepo & _ & Hcase).
  destruct Hcase as [(j & entry & Hj & Hlook & Hmatch & _ & Hptr & Hcell
                      & Hr) | (-> & _ & _)].
  2: { unfold andThen. split; [done |]. left. by eexists. }
  destruct Hr as [[_ ->] | [_ ->]].
  2: { unfold andThen. split; [done |]. left. by eexists. }
  unfold andThen.
  eapply wp_conseq.
  { apply (after_finder_any (Config_Namespace cfg) s1
                            (defaulted EnvProviderEcs entry)).
    unfold resolved. by rewrite Hptr, Hcell. }
  cbn beta. unfold newCalls. rewrite Hcalls, Hrev, Hrepo. cbn [length drop].
  intros r s' (Hpanic & Hsub & Hprefix & Hall).
  split; [done |]. right. exists entry.
  split; [by eapply list_elem_of_lookup_2 |]. split; [done |].
  cbv zeta. done.
Qed.

(** X17: the pipeline never panics.  Each stage after the finder
    dereferences the workflow's environment pointer, which is nil in a new
    workflow, and the load-balancer stage reads the outputs of the awaited
    stack; run from the state [NewEnvironmentUpserter] sets up, whatever the
    configuration, the name and the collaborators' answers, the pipeline
    returns nil or an error: the finder has set the pointer before any later
    stage runs, and the classifier has rejected an absent stack before its
    outputs are read. *)
Theorem X17_pipeline_never_panics cfg environmentName w :
  let ctx := mkContext W cfg stackManager rolesetUpserter rolesetGetter in
  (pipeline ctx environmentName (newState W ctx w)).1 ≠ Panic.
Proof.
  intros ctx. pose proof (pipeline_wp cfg environmentName w) as H.
  cbv zeta in H. unfold wp in H. by destruct H as [H _].
Qed.



End Pipeline.

(** X20: no stack stage can run before the finder.  With the workflow's
    environment pointer still nil, the network, load-balancer and compute
    stages each panic at their first read of a field of the environment,
    before any collaborator is called and with the state untouched. *)
Theorem X20_stage_needs_environment :
  (∀ namespace imageFinder stackUpserter stackWaiter azCounter s,
      environment (workflow s) = None →
      vpcStage namespace imageFinder stackUpserter stackWaiter azCounter s
      = (Panic, s))
  ∧ (∀ namespace imageFinder stackUpserter stackWaiter s,
        environment (workflow s) = None →
        elbStage namespace imageFinder stackUpserter stackWaiter s
        = (Panic, s))
  ∧ (∀ namespace imageFinder stackUpserter stackWaiter s,
        environment (workflow s) = None →
        envStage namespace imageFinder stackUpserter stackWaiter s
        = (Panic, s)).
Proof.
  split; [| split]; intros * Hnil;
    unfold environmentVpcUpserter, environmentElbUpserter,
      environmentUpserter, derefEnvironment, getWorkflow, load,
      mbind, M_bind; cbn; by rewrite Hnil.
Qed.

End StageBehaviour.


Section GitSearch.

Variable os_Stat : string → bool + error.
Variable path_Dir : string → string.
Variable path_Join : string → string → string.

Local Abbreviation search := (findGitDirectory os_Stat path_Dir path_Join).
Local Abbreviation calls_on := (recurses os_Stat path_Dir path_Join).
Local Abbreviation looks_into := (searchDir os_Stat path_Dir).
Local Abbreviation has_git := (hasGit os_Stat path_Join).

(** What one call does: it fails on its argument, finds the repository,
    gives up at the root, or returns what the call on the parent returns. *)
Lemma search_step fuel fromFile :
  (∃ err, os_Stat fromFile = inr err
          ∧ search (S fuel) fromFile = Some ("", Some err))
  ∨ (∃ dir, looks_into fromFile = Some dir ∧ has_git dir
            ∧ search (S fuel) fromFile = Some (path_Join dir ".git", None))
  ∨ (looks_into fromFile = Some "/" ∧ ¬ has_git "/"
     ∧ search (S fuel) fromFile
       = Some ("", Some (Error "Unable to find git repo")))
  ∨ (∃ next, calls_on fromFile next
             ∧ search (S fuel) fromFile = search fuel next).
Proof.
  unfold recurses, searchDir, hasGit. cbn [findGitDirectory].
  destruct (os_Stat fromFile) as [isDir|err] eqn:Hstat;
    [| left; by eexists].
  right.
  set (dir := if isDir then fromFile else path_Dir fromFile).
  assert ((if isDir then Some fromFile else Some (path_Dir fromFile))
          = Some dir) as Hdir by (by destruct isDir).
  rewrite Hdir.
  destruct (String.eqb dir "/") eqn:Hroot.
  - apply String.eqb_eq in Hroot. rewrite <- Hroot.
    destruct (os_Stat (path_Join dir ".git")) as [[]|e] eqn:Hg.
    + left. by exists dir.
    + right; left. done.
    + right; left. done.
  - apply String.eqb_neq in Hroot.
    destruct (os_Stat (path_Join dir ".git")) as [[]|e] eqn:Hg.
    + left. by exists dir.
    + right; right. exists (path_Dir dir). split; [exists dir |]; try done.
      by rewrite Hg.
    + right; right. exists (path_Dir dir). split; [exists dir |]; try done.
      by rewrite Hg.
Qed.

(** A call that recurses returns what the call on the parent returns. *)
Lemma recurses_inv fromFile next :
  calls_on fromFile next →
  ∀ fuel, search (S fuel) fromFile = search fuel next.
Proof.
  intros (dir & Hdir & Hgit & Hroot & ->) fuel.
  unfold searchDir in Hdir. unfold hasGit in Hgit. cbn [findGitDirectory].
  destruct (os_Stat fromFile) as [[]|]; simplify_eq;
    apply String.eqb_neq in Hroot; rewrite Hroot;
    by destruct (os_Stat (path_Join _ ".git")) as [[]|].
Qed.

Lemma search_reaches fromFile last :
  rtc calls_on fromFile last →
  ∀ fuel answer,
    search fuel last = Some answer →
    ∃ fuel', search fuel' fromFile = Some answer.
Proof.
  induction 1 as [|f g h Hfg _ IH]; intros fuel answer Hrun;
    [by exists fuel |].
  destruct (IH fuel answer Hrun) as [fuel' Hfuel'].
  exists (S fuel'). by rewrite (recurses_inv _ _ Hfg).
Qed.

(** A run that returns has gone up through recursive calls to a last call
    that returned by itself. *)
Lemma search_returns fuel :
  ∀ fromFile answer,
    search fuel fromFile = Some answer →
    ∃ last,
      rtc calls_on fromFile last
      ∧ ((∃ err, os_Stat last = inr err ∧ answer = ("", Some err))
         ∨ (∃ dir, looks_into last = Some dir ∧ has_git dir
                   ∧ answer = (path_Join dir ".git", None))
         ∨ (looks_into last = Some "/" ∧ ¬ has_git "/"
            ∧ answer = ("", Some (Error "Unable to find git repo")))).
Proof.
  induction fuel as [|fuel IH]; intros fromFile answer Hrun; [done |].
  destruct (search_step fuel fromFile)
    as [(err & Hstat & E) | [(dir & Hdir & Hgit & E) | [(Hdir & Hgit & E)
        | (next & Hnext & E)]]];
    rewrite E in Hrun.
  - exists fromFile. split; [done |]. left. exists err. by simplify_eq.
  - exists fromFile. split; [done |]. right; left. exists dir.
    by simplify_eq.
  - exists fromFile. split; [done |]. right; right. by simplify_eq.
  - destruct (IH next answer Hrun) as (last & Hreach & Hlast).
    exists last. split; [by eapply rtc_l |]. done.
Qed.

(** X21: the repository found is the nearest one.  [findGitDirectory]
    returns a path without error exactly when the chain of recursive calls
    from its argument, each one on the parent of a directory that holds no
    [.git] directory and is not the root, reaches a call whose directory
    does hold one; the path returned is that directory's [.git]. *)
Theorem X21_git_directory_found fromFile gitPath :
  (∃ fuel, search fuel fromFile = Some (gitPath, None))
  ↔ ∃ last dir,
      rtc calls_on fromFile last
      ∧ looks_into last = Some dir
      ∧ has_git dir
      ∧ gitPath = path_Join dir ".git".
Proof.
  split.
  - intros [fuel Hrun].
    destruct (search_returns _ _ _ Hrun)
      as (last & Hreach & [(? & _ & ?) | [(dir & Hdir & Hgit & ?)
                                        | (_ & _ & ?)]]);
      simplify_eq.
    by exists last, dir.
  - intros (last & dir & Hreach & Hdir & Hgit & ->).
    apply (search_reaches _ _ Hreach 1).
    destruct (search_step 0 last)
      as [(err & Hstat & E) | [(dir' & Hdir' & _ & E) | [(Hdir' & Hno & E)
          | (next & (dir' & Hdir' & Hno & _) & E)]]].
    + unfold searchDir in Hdir. by rewrite Hstat in Hdir.
    + by simplify_eq.
    + by simplify_eq.
    + by simplify_eq.
Qed.

(** X22: the two ways to fail.  [findGitDirectory] returns an error exactly
    when the chain of recursive calls reaches a call that cannot examine
    its argument, and then the error is the one [os.Stat] gave, or reaches
    the root directory without finding a [.git] directory there, and then
    the error is [Unable to find git repo]; the path returned with an error
    is empty. *)
Theorem X22_git_directory_errors fromFile path err :
  (∃ fuel, search fuel fromFile = Some (path, Some err))
  ↔ path = ""
    ∧ ∃ last,
        rtc calls_on fromFile last
        ∧ (os_Stat last = inr err
           ∨ (looks_into last = Some "/" ∧ ¬ has_git "/"
              ∧ err = Error "Unable to find git repo")).
Proof.
  split.
  - intros [fuel Hrun].
    destruct (search_returns _ _ _ Hrun)
      as (last & Hreach & [(? & Hstat & ?) | [(dir & Hdir & Hgit & ?)
                                            | (Hdir & Hgit & ?)]]);
      simplify_eq; (split; [done |]); exists last; (split; [done |]).
    + by left.
    + by right.
  - intros (-> & last & Hreach & Hlast).
    apply (search_reaches _ _ Hreach 1).
    destruct (search_step 0 last)
      as [(err' & Hstat & E) | [(dir' & Hdir' & Hgit & E)
          | [(Hdir' & Hno & E) | (next & (dir' & Hdir' & Hno & Hroot & _)
                                  & E)]]];
      destruct Hlast as [Hstat' | (Hdir & Hnogit & ->)];
      unfold searchDir in *; simplify_eq; try done.
    all: try (rewrite Hstat' in *; done).
    all: try (rewrite Hstat in *; done).
    rewrite E. congruence.
Qed.

(** X23: the search need not end.  When the chain of recursive calls
    reaches a directory other than the root that is its own parent and
    holds no [.git] directory, the function calls itself on that directory
    again and again: it returns for no depth of recursion.  ([path.Dir]
    gives [.] for [.], which is where every relative path leads.) *)
Theorem X23_git_directory_search_loops fromFile dir :
  rtc calls_on fromFile dir →
  os_Stat dir = inl true →
  path_Dir dir = dir →
  dir ≠ "/" →
  ¬ has_git dir →
  ∀ fuel, search fuel fromFile = None.
Proof.
  intros Hreach Hstat Hself Hroot Hgit.
  assert (calls_on dir dir) as Hloop.
  { exists dir. unfold searchDir. by rewrite Hstat. }
  assert (∀ fuel, search fuel dir = None) as Hstuck.
  { induction fuel as [|fuel IH]; [done |].
    by rewrite (recurses_inv _ _ Hloop). }
  clear Hstat Hself Hroot Hgit Hloop.
  induction Hreach as [|f g h Hfg _ IH]; [done |].
  intros [|fuel]; [done |].
  rewrite (recurses_inv _ _ Hfg). by apply IH.
Qed.

End GitSearch.

(** * The further properties on the sample cloud *)

Ltac in_log :=
  repeat first [apply list_elem_of_here | apply list_elem_of_further].

Lemma X1_witness :
  ∃ s' env,
    environmentFinder Sample.World EqualFoldAscii "ecs" "STAGING"
      (newState Sample.World
         (Sample.context [Sample.named "dev"; Sample.named "staging"] 2) [])
    = (Ok tt, s')
    ∧ resolved s' = Some env
    ∧ Provider env
      = (if String.eqb (Provider (Sample.named "staging")) "" then "ecs"
         else Provider (Sample.named "staging"))
    ∧ setProvider (Provider (Sample.named "staging")) env
      = Sample.named "staging".
Proof.
  apply (@X1_finder_takes_first_match
           Sample.World EqualFoldAscii "ecs" "STAGING"
           (newState Sample.World
              (Sample.context [Sample.named "dev"; Sample.named "staging"] 2)
              [])
           1%nat (Sample.named "staging")).
  - reflexivity.
  - reflexivity.
  - intros [|j'] entry' Hlt Hlook; [| lia].
    injection Hlook as <-. reflexivity.
  - discriminate.
Defined.

Lemma X2_witness :
  ∃ s',
    environmentFinder Sample.World EqualFoldAscii "ecs" "staging"
      (newState Sample.World
         (Sample.context [Faults.withConsul "staging"] 2) [])
    = (Fail consulRejected, s')
    ∧ isWarning consulRejected = false
    ∧ resolved s' = Some (defaulted "ecs" (Faults.withConsul "staging"))
    ∧ calls s'
      = calls (newState Sample.World
                 (Sample.context [Faults.withConsul "staging"] 2) []).
Proof.
  apply (@X2_finder_rejects_consul
           Sample.World EqualFoldAscii "ecs" "staging"
           (newState Sample.World
              (Sample.context [Faults.withConsul "staging"] 2) [])
           0%nat (Faults.withConsul "staging")).
  - reflexivity.
  - reflexivity.
  - intros j' entry' Hlt. lia.
  - reflexivity.
Defined.

Lemma X3_witness :
  ∃ commonRoleset environmentRoleset,
    newCalls (Sample.resolvedState (Sample.named "staging"))
             (Faults.rolesetStage
                Sample.rolesetUpserter
                (Sample.resolvedState (Sample.named "staging"))).2
    = [ CallUpsertCommonRoleset None;
        CallGetCommonRoleset commonRoleset None;
        CallUpsertEnvironmentRoleset (Name (Sample.named "staging")) None;
        CallGetEnvironmentRoleset (Name (Sample.named "staging"))
                                  environmentRoleset None ]
    ∧ cloudFormationRoleArn
        (workflow
           (Faults.rolesetStage
              Sample.rolesetUpserter
              (Sample.resolvedState (Sample.named "staging"))).2)
      = mapGet commonRoleset "CloudFormationRoleArn"
    ∧ ecsStackParams
        (Faults.rolesetStage
           Sample.rolesetUpserter
           (Sample.resolvedState (Sample.named "staging"))).2
      = <["EC2InstanceProfileArn" :=
            mapGet environmentRoleset "EC2InstanceProfileArn"]>
          (ecsStackParams (Sample.resolvedState (Sample.named "staging")))
    ∧ elbStackParams
        (Faults.rolesetStage
           Sample.rolesetUpserter
           (Sample.resolvedState (Sample.named "staging"))).2
      = elbStackParams (Sample.resolvedState (Sample.named "staging"))
    ∧ resolved
        (Faults.rolesetStage
           Sample.rolesetUpserter
           (Sample.resolvedState (Sample.named "staging"))).2
      = Some (Sample.named "staging").
Proof.
  apply (@X3_roleset_success
           Sample.World Sample.rolesetUpserter Sample.rolesetGetter
           (Sample.resolvedState (Sample.named "staging"))
           (Sample.named "staging")).
  - reflexivity.
  - vm_compute. reflexivity.
Defined.

Lemma X4_witness :
  (∃ earlier failing,
      newCalls (Sample.resolvedState (Sample.named "staging"))
               (Faults.rolesetStage
                  Faults.rolesetUpserter
                  (Sample.resolvedState (Sample.named "staging"))).2
      = earlier ++ [failing]
      ∧ callError failing = Some Faults.denied
      ∧ Forall (λ c, callError c = None) earlier)
  ∧ ecsStackParams
      (Faults.rolesetStage
         Faults.rolesetUpserter
         (Sample.resolvedState (Sample.named "staging"))).2
    = ecsStackParams (Sample.resolvedState (Sample.named "staging"))
  ∧ elbStackParams
      (Faults.rolesetStage
         Faults.rolesetUpserter
         (Sample.resolvedState (Sample.named "staging"))).2
    = elbStackParams (Sample.resolvedState (Sample.named "staging"))
  ∧ (∀ commonRoleset,
        CallGetCommonRoleset commonRoleset None
        ∈ newCalls (Sample.resolvedState (Sample.named "staging"))
                   (Faults.rolesetStage
                      Faults.rolesetUpserter
                      (Sample.resolvedState (Sample.named "staging"))).2 →
        cloudFormationRoleArn
          (workflow
             (Faults.rolesetStage
                Faults.rolesetUpserter
                (Sample.resolvedState (Sample.named "staging"))).2)
        = mapGet commonRoleset "CloudFormationRoleArn").
Proof.
  apply (@X4_roleset_failure
           Sample.World Faults.rolesetUpserter Sample.rolesetGetter
           (Sample.resolvedState (Sample.named "staging"))
           (Sample.named "staging") Faults.denied).
  - reflexivity.
  - vm_compute. reflexivity.
Defined.

Example X4_sample_calls :
  newCalls (Sample.resolvedState (Sample.named "staging"))
           (Faults.rolesetStage
              Faults.rolesetUpserter
              (Sample.resolvedState (Sample.named "staging"))).2
  = [ CallUpsertCommonRoleset None;
      CallGetCommonRoleset
        {[ "CloudFormationRoleArn" := "arn:aws:iam::1:role/mu-cfn" ]} None;
      CallUpsertEnvironmentRoleset "staging" (Some Faults.denied) ].
Proof. vm_compute. reflexivity. Qed.

Lemma X5_witness :
  ∃ parameters tags err rest,
    newCalls (Sample.resolvedState (Faults.secured "staging"))
             (Sample.elbStage
                "CREATE_COMPLETE"
                (Sample.resolvedState (Faults.secured "staging"))).2
    = CallUpsertStack
        (Sample.CreateStackName "mu" "loadbalancer"
                                (Name (Faults.secured "staging")))
        "elb.yml" (Faults.secured "staging") parameters tags
        (cloudFormationRoleArn
           (workflow (Sample.resolvedState (Faults.secured "staging"))))
        err
        :: rest
    ∧ elbStackParams
        (Sample.elbStage
           "CREATE_COMPLETE"
           (Sample.resolvedState (Faults.secured "staging"))).2
      = parameters
    ∧ parameters !! "ServiceDiscoveryName"
      = Some (if String.eqb (Discovery_Name (Faults.secured "staging")) ""
              then Name (Faults.secured "staging") +:+ "." +:+ "mu"
                   +:+ ".local"
              else Discovery_Name (Faults.secured "staging"))
    ∧ parameters !! "ElbInternal"
      = Some (FormatBool (Loadbalancer_Internal (Faults.secured "staging")))
    ∧ parameters !! "ElbCert"
      = (if nonEmpty (Loadbalancer_Certificate (Faults.secured "staging"))
         then Some (Loadbalancer_Certificate (Faults.secured "staging"))
         else elbStackParams
                (Sample.resolvedState (Faults.secured "staging"))
              !! "ElbCert")
    ∧ parameters !! "ElbDomainName"
      = (if nonEmpty (Loadbalancer_HostedZone (Faults.secured "staging"))
         then Some (Loadbalancer_HostedZone (Faults.secured "staging"))
         else elbStackParams
                (Sample.resolvedState (Faults.secured "staging"))
              !! "ElbDomainName")
    ∧ parameters !! "ElbHostName"
      = (if nonEmpty (Loadbalancer_HostedZone (Faults.secured "staging"))
         then Some (if String.eqb
                         (Loadbalancer_Name (Faults.secured "staging")) ""
                    then Name (Faults.secured "staging")
                    else Loadbalancer_Name (Faults.secured "staging"))
         else elbStackParams
                (Sample.resolvedState (Faults.secured "staging"))
              !! "ElbHostName")
    ∧ (∀ k, k ≠ "ServiceDiscoveryName" → k ≠ "ElbInternal" →
            k ≠ "ElbCert" → k ≠ "ElbDomainName" → k ≠ "ElbHostName" →
            parameters !! k
            = elbStackParams
                (Sample.resolvedState (Faults.secured "staging")) !! k).
Proof.
  apply (@X5_elb_parameters
           Sample.World "loadbalancer" Sample.CreateStackName
           Sample.createTagMap "mu" Sample.imageFinder Sample.stackUpserter
           (Sample.stackWaiter "CREATE_COMPLETE")
           (Sample.resolvedState (Faults.secured "staging"))
           (Faults.secured "staging")
           (Sample.elbStage
              "CREATE_COMPLETE"
              (Sample.resolvedState (Faults.secured "staging"))).1).
  - reflexivity.
  - vm_compute. reflexivity.
Defined.

Example X5_sample_parameters :
  elbStackParams
    (Sample.elbStage "CREATE_COMPLETE"
                     (Sample.resolvedState (Faults.secured "staging"))).2
  = {[ "ElbCert" := "arn:aws:acm:cert/1";
       "ElbDomainName" := "example.com";
       "ElbHostName" := "staging";
       "ServiceDiscoveryName" := "staging.mu.local";
       "ElbInternal" := "true" ]}.
Proof. vm_compute. reflexivity. Qed.

Lemma X6_witness :
  ecsStackParams
    (Sample.elbStage "ROLLBACK_COMPLETE"
                     (Sample.resolvedState (Sample.named "staging"))).2
  = ecsStackParams (Sample.resolvedState (Sample.named "staging")).
Proof.
  apply (@X6_elb_failure_keeps_compute_map
           Sample.World "loadbalancer" Sample.CreateStackName
           Sample.createTagMap "mu" Sample.imageFinder Sample.stackUpserter
           (Sample.stackWaiter "ROLLBACK_COMPLETE")
           (Sample.resolvedState (Sample.named "staging"))
           (Errorf "Ended in failed status ROLLBACK_COMPLETE ")).
  vm_compute. reflexivity.
Defined.

Example X7_sample_denied :
  (Faults.envStage Sample.imageFinder Faults.stackUpserter
                   (Sample.resolvedState (Sample.named "staging"))).1
  = Fail Faults.denied
  ∧ existsb isAwaitFinalStatus
      (calls (Faults.envStage
                Sample.imageFinder Faults.stackUpserter
                (Sample.resolvedState (Sample.named "staging"))).2)
    = false.
Proof. split; vm_compute; reflexivity. Qed.

Lemma X8_witness :
  existsb isFindLatestImageID
    (newCalls (Sample.resolvedState (Sample.withImage "staging" "ami-custom"))
              (Sample.envStage
                 "CREATE_COMPLETE"
                 (Sample.resolvedState
                    (Sample.withImage "staging" "ami-custom"))).2)
  = false
  ∧ ∀ stackName templateName e parameters tags roleArn err,
      CallUpsertStack stackName templateName e parameters tags roleArn err
      ∈ newCalls
          (Sample.resolvedState (Sample.withImage "staging" "ami-custom"))
          (Sample.envStage
             "CREATE_COMPLETE"
             (Sample.resolvedState
                (Sample.withImage "staging" "ami-custom"))).2 →
      parameters !! "ImageId"
      = Some (Cluster_ImageID (Sample.withImage "staging" "ami-custom")).
Proof.
  apply (@X8_configured_image_is_used
           Sample.World "ecs" "ecs-fargate" "ec2" "environment"
           Sample.CreateStackName Sample.createTagMap "mu"
           Sample.imageFinder Sample.stackUpserter
           (Sample.stackWaiter "CREATE_COMPLETE")
           (Sample.resolvedState (Sample.withImage "staging" "ami-custom"))
           (Sample.withImage "staging" "ami-custom")
           (Sample.envStage
              "CREATE_COMPLETE"
              (Sample.resolvedState
                 (Sample.withImage "staging" "ami-custom"))).1).
  - reflexivity.
  - discriminate.
  - vm_compute. reflexivity.
Defined.

Lemma X9_witness :
  (Faults.envStage Faults.imageFinder Sample.stackUpserter
                   (Sample.resolvedState
                      (Faults.withProvider "staging" "ec2"))).1
  = Fail Faults.denied
  ∧ newCalls (Sample.resolvedState (Faults.withProvider "staging" "ec2"))
             (Faults.envStage
                Faults.imageFinder Sample.stackUpserter
                (Sample.resolvedState
                   (Faults.withProvider "staging" "ec2"))).2
    = [CallFindLatestImageID
         (envMappingAt "ecs" "ecs-fargate" "ec2"
                       (Provider (Faults.withProvider "staging" "ec2"))
                       "imagePattern")
         "" (Some Faults.denied)]
  ∧ ecsStackParams
      (Faults.envStage
         Faults.imageFinder Sample.stackUpserter
         (Sample.resolvedState (Faults.withProvider "staging" "ec2"))).2
    !! "ImageId"
    = Some "".
Proof.
  apply (@X9_image_lookup_error
           Sample.World "ecs" "ecs-fargate" "ec2" "environment"
           Sample.CreateStackName Sample.createTagMap "mu"
           Faults.imageFinder Sample.stackUpserter
           (Sample.stackWaiter "CREATE_COMPLETE")
           (Sample.resolvedState (Faults.withProvider "staging" "ec2"))
           (Faults.withProvider "staging" "ec2") "" Faults.denied []).
  - reflexivity.
  - reflexivity.
  - reflexivity.
  - vm_compute. reflexivity.
Defined.

Lemma X10_witness :
  (∀ stackName templateName e parameters tags roleArn err,
      CallUpsertStack stackName templateName e parameters tags roleArn err
      ∈ newCalls
          (Sample.resolvedState (Faults.withProvider "staging" "kubernetes"))
          (Sample.envStage
             "CREATE_COMPLETE"
             (Sample.resolvedState
                (Faults.withProvider "staging" "kubernetes"))).2 →
      templateName = "" ∧ parameters !! "LaunchType" = Some "")
  ∧ (∀ pattern id err,
        CallFindLatestImageID pattern id err
        ∈ newCalls
            (Sample.resolvedState
               (Faults.withProvider "staging" "kubernetes"))
            (Sample.envStage
               "CREATE_COMPLETE"
               (Sample.resolvedState
                  (Faults.withProvider "staging" "kubernetes"))).2 →
        pattern = "")
  ∧ ((Sample.envStage
        "CREATE_COMPLETE"
        (Sample.resolvedState
           (Faults.withProvider "staging" "kubernetes"))).1
     = Ok tt →
     existsb isUpsertStack
       (newCalls
          (Sample.resolvedState (Faults.withProvider "staging" "kubernetes"))
          (Sample.envStage
             "CREATE_COMPLETE"
             (Sample.resolvedState
                (Faults.withProvider "staging" "kubernetes"))).2)
     = true).
Proof.
  apply (@X10_unknown_provider
           Sample.World "ecs" "ecs-fargate" "ec2" "environment"
           Sample.CreateStackName Sample.createTagMap "mu"
           Sample.imageFinder Sample.stackUpserter
           (Sample.stackWaiter "CREATE_COMPLETE")
           (Sample.resolvedState (Faults.withProvider "staging" "kubernetes"))
           (Faults.withProvider "staging" "kubernetes")).
  - reflexivity.
  - discriminate.
  - discriminate.
  - discriminate.
  - vm_compute. reflexivity.
Defined.

Example X10_sample_submission :
  ∃ parameters tags,
    calls (Sample.envStage
             "CREATE_COMPLETE"
             (Sample.resolvedState
                (Faults.withProvider "staging" "kubernetes"))).2
    !! 1%nat
    = Some (CallUpsertStack "mu-environment-staging" ""
              (Faults.withProvider "staging" "kubernetes") parameters tags
              "arn:aws:iam::1:role/mu-cfn" None).
Proof. do 2 eexists. vm_compute. reflexivity. Qed.

Lemma X11_witness :
  ∃ parameters : gmap string string,
    let held k :=
      ecsStackParams (Sample.resolvedState (Faults.sized "staging")) !! k in
    parameters !! "SshAllow"
    = Some (if nonEmpty (Cluster_SSHAllow (Faults.sized "staging"))
            then Cluster_SSHAllow (Faults.sized "staging")
            else "0.0.0.0/0")
    ∧ parameters !! "InstanceType"
      = optionalString (Cluster_InstanceType (Faults.sized "staging"))
                       (held "InstanceType")
    ∧ parameters !! "ExtraUserData"
      = optionalString (Cluster_ExtraUserData (Faults.sized "staging"))
                       (held "ExtraUserData")
    ∧ parameters !! "ImageOsType"
      = optionalString (Cluster_ImageOsType (Faults.sized "staging"))
                       (held "ImageOsType")
    ∧ parameters !! "KeyName"
      = optionalString (Cluster_KeyName (Faults.sized "staging"))
                       (held "KeyName")
    ∧ parameters !! "HttpProxy"
      = optionalString (Cluster_HTTPProxy (Faults.sized "staging"))
                       (held "HttpProxy")
    ∧ parameters !! "DesiredCapacity"
      = optionalInt (Cluster_DesiredCapacity (Faults.sized "staging"))
                    (held "DesiredCapacity")
    ∧ parameters !! "MinSize"
      = optionalInt (Cluster_MinSize (Faults.sized "staging"))
                    (held "MinSize")
    ∧ parameters !! "MaxSize"
      = optionalInt (Cluster_MaxSize (Faults.sized "staging"))
                    (held "MaxSize")
    ∧ parameters !! "TargetCPUReservation"
      = optionalInt (Cluster_TargetCPUReservation (Faults.sized "staging"))
                    (held "TargetCPUReservation")
    ∧ parameters !! "TargetMemoryReservation"
      = optionalInt
          (Cluster_TargetMemoryReservation (Faults.sized "staging"))
          (held "TargetMemoryReservation").
Proof.
  eexists.
  eapply (@X11_optional_parameters
            Sample.World "ecs" "ecs-fargate" "ec2" "environment"
            Sample.CreateStackName Sample.createTagMap "mu"
            Sample.imageFinder Sample.stackUpserter
            (Sample.stackWaiter "CREATE_COMPLETE")
            (Sample.resolvedState (Faults.sized "staging"))
            (Faults.sized "staging")
            (Sample.envStage
               "CREATE_COMPLETE"
               (Sample.resolvedState (Faults.sized "staging"))).1
            (Sample.envStage
               "CREATE_COMPLETE"
               (Sample.resolvedState (Faults.sized "staging"))).2).
  - reflexivity.
  - vm_compute. reflexivity.
  - vm_compute. in_log.
Defined.

Example X11_sample_parameters :
  ecsStackParams
    (Sample.envStage "CREATE_COMPLETE"
                     (Sample.resolvedState (Faults.sized "staging"))).2
  = {[ "LaunchType" := "EC2"; "SshAllow" := "10.0.0.0/8";
       "InstanceType" := "t3.large"; "ImageId" := "ami-ecs-0001";
       "DesiredCapacity" := "3"; "MinSize" := "1"; "MaxSize" := "5" ]}.
Proof. vm_compute. reflexivity. Qed.

Lemma X12_witness :
  ∃ stackName templateName (parameters : gmap string string),
    stackName
    = Sample.CreateStackName "mu" "vpc"
                             (Name (Faults.withKey "staging" "ops"))
    ∧ templateName = "vpc.yml"
    ∧ parameters !! "SshAllow"
      = Some (if nonEmpty (Cluster_SSHAllow (Faults.withKey "staging" "ops"))
              then Cluster_SSHAllow (Faults.withKey "staging" "ops")
              else "0.0.0.0/0")
    ∧ parameters !! "ElbInternal"
      = Some (FormatBool
                (Loadbalancer_Internal (Faults.withKey "staging" "ops")))
    ∧ parameters !! "InstanceTenancy"
      = (if nonEmpty
              (Cluster_InstanceTenancy (Faults.withKey "staging" "ops"))
         then Some (Cluster_InstanceTenancy (Faults.withKey "staging" "ops"))
         else None)
    ∧ parameters !! "VpcId" = None
    ∧ (∃ azCount,
         CallCountAZs azCount None
         ∈ newCalls
             (Sample.resolvedState (Faults.withKey "staging" "ops"))
             (Sample.vpcStage
                2 (Sample.resolvedState (Faults.withKey "staging" "ops"))).2
         ∧ 2 ≤ azCount
         ∧ parameters !! "AZCount" = Some (Itoa azCount))
    ∧ (if nonEmpty (Cluster_KeyName (Faults.withKey "staging" "ops"))
       then parameters !! "BastionKeyName"
            = Some (Cluster_KeyName (Faults.withKey "staging" "ops"))
            ∧ ∃ id,
                CallFindLatestImageID ec2ImagePattern id None
                ∈ newCalls
                    (Sample.resolvedState (Faults.withKey "staging" "ops"))
                    (Sample.vpcStage
                       2 (Sample.resolvedState
                            (Faults.withKey "staging" "ops"))).2
                ∧ parameters !! "BastionImageId" = Some id
       else parameters !! "BastionKeyName" = None
            ∧ parameters !! "BastionImageId" = None
            ∧ existsb isFindLatestImageID
                (newCalls
                   (Sample.resolvedState (Faults.withKey "staging" "ops"))
                   (Sample.vpcStage
                      2 (Sample.resolvedState
                           (Faults.withKey "staging" "ops"))).2)
              = false).
Proof.
  do 3 eexists.
  eapply (@X12_managed_network
            Sample.World "vpc" "target" Sample.CreateStackName
            Sample.createTagMap "mu" Sample.imageFinder Sample.stackUpserter
            (Sample.stackWaiter "CREATE_COMPLETE") (Sample.azCounter 2)
            (Sample.resolvedState (Faults.withKey "staging" "ops"))
            (Faults.withKey "staging" "ops")
            (Sample.vpcStage
               2 (Sample.resolvedState (Faults.withKey "staging" "ops"))).1
            (Sample.vpcStage
               2 (Sample.resolvedState (Faults.withKey "staging" "ops"))).2).
  - reflexivity.
  - reflexivity.
  - reflexivity.
  - vm_compute. reflexivity.
  - vm_compute. in_log.
Defined.

Example X12_sample_parameters :
  ∃ tags,
    calls (Sample.vpcStage
             2 (Sample.resolvedState (Faults.withKey "staging" "ops"))).2
    !! 2%nat
    = Some (CallUpsertStack "mu-vpc-staging" "vpc.yml"
              (Faults.withKey "staging" "ops")
              {[ "SshAllow" := "0.0.0.0/0"; "BastionKeyName" := "ops";
                 "BastionImageId" := "ami-ec2-0002";
                 "ElbInternal" := "false"; "AZCount" := "2" ]}
              tags "arn:aws:iam::1:role/mu-cfn" None).
Proof. eexists. vm_compute. reflexivity. Qed.

Lemma X13_witness :
  (Faults.vpcStage Faults.imageFinder (Sample.azCounter 2)
                   (Sample.resolvedState (Faults.withKey "staging" "ops"))).1
  = Fail Faults.denied
  ∧ newCalls (Sample.resolvedState (Faults.withKey "staging" "ops"))
             (Faults.vpcStage
                Faults.imageFinder (Sample.azCounter 2)
                (Sample.resolvedState (Faults.withKey "staging" "ops"))).2
    = [CallFindLatestImageID ec2ImagePattern "" (Some Faults.denied)]
  ∧ world (Faults.vpcStage
             Faults.imageFinder (Sample.azCounter 2)
             (Sample.resolvedState (Faults.withKey "staging" "ops"))).2
    = []
  ∧ ecsStackParams
      (Faults.vpcStage
         Faults.imageFinder (Sample.azCounter 2)
         (Sample.resolvedState (Faults.withKey "staging" "ops"))).2
    = ecsStackParams (Sample.resolvedState (Faults.withKey "staging" "ops"))
  ∧ elbStackParams
      (Faults.vpcStage
         Faults.imageFinder (Sample.azCounter 2)
         (Sample.resolvedState (Faults.withKey "staging" "ops"))).2
    = elbStackParams (Sample.resolvedState (Faults.withKey "staging" "ops")).
Proof.
  apply (@X13_bastion_image_error
           Sample.World "vpc" "target" Sample.CreateStackName
           Sample.createTagMap "mu" Faults.imageFinder Sample.stackUpserter
           (Sample.stackWaiter "CREATE_COMPLETE") (Sample.azCounter 2)
           (Sample.resolvedState (Faults.withKey "staging" "ops"))
           (Faults.withKey "staging" "ops") "" Faults.denied []).
  - reflexivity.
  - reflexivity.
  - reflexivity.
  - discriminate.
  - reflexivity.
  - vm_compute. reflexivity.
Defined.

Lemma X14_witness :
  (Faults.vpcStage Sample.imageFinder Faults.azCounter
                   (Sample.resolvedState (Sample.attributed "staging"))).1
  = Fail Faults.denied
  ∧ last (newCalls
            (Sample.resolvedState (Sample.attributed "staging"))
            (Faults.vpcStage
               Sample.imageFinder Faults.azCounter
               (Sample.resolvedState (Sample.attributed "staging"))).2)
    = Some (CallCountAZs 0 (Some Faults.denied))
  ∧ existsb isUpsertStack
      (newCalls
         (Sample.resolvedState (Sample.attributed "staging"))
         (Faults.vpcStage
            Sample.imageFinder Faults.azCounter
            (Sample.resolvedState (Sample.attributed "staging"))).2)
    = false.
Proof.
  apply (@X14_az_count_error
           Sample.World "vpc" "target" Sample.CreateStackName
           Sample.createTagMap "mu" Sample.imageFinder Sample.stackUpserter
           (Sample.stackWaiter "CREATE_COMPLETE") Faults.azCounter
           (Sample.resolvedState (Sample.attributed "staging"))
           (Sample.attributed "staging")).
  - reflexivity.
  - vm_compute. reflexivity.
  - vm_compute. in_log.
Defined.

Lemma X15_witness :
  ∃ vpcStackName,
    vpcStackName
    = (if nonEmpty (VpcTarget_Environment (Sample.attributed "staging"))
       then Sample.CreateStackName
              (if String.eqb
                    (VpcTarget_Namespace (Sample.attributed "staging")) ""
               then "mu"
               else VpcTarget_Namespace (Sample.attributed "staging"))
              "vpc" (VpcTarget_Environment (Sample.attributed "staging"))
       else if nonEmpty (VpcTarget_VpcID (Sample.attributed "staging"))
       then Sample.CreateStackName "mu" "target"
                                   (Name (Sample.attributed "staging"))
       else Sample.CreateStackName "mu" "vpc"
                                   (Name (Sample.attributed "staging")))
    ∧ ecsStackParams
        (Sample.vpcStage
           2 (Sample.resolvedState (Sample.attributed "staging"))).2
      = <["InstanceSubnetIds" := vpcStackName +:+ "-InstanceSubnetIds"]>
          (<["VpcId" := vpcStackName +:+ "-VpcId"]>
             (ecsStackParams
                (Sample.resolvedState (Sample.attributed "staging"))))
    ∧ elbStackParams
        (Sample.vpcStage
           2 (Sample.resolvedState (Sample.attributed "staging"))).2
      = <["ElbSubnetIds" := vpcStackName +:+ "-ElbSubnetIds"]>
          (<["VpcId" := vpcStackName +:+ "-VpcId"]>
             (elbStackParams
                (Sample.resolvedState (Sample.attributed "staging"))))
    ∧ (∀ stackName templateName e parameters tags roleArn err,
          CallUpsertStack stackName templateName e parameters tags roleArn
                          err
          ∈ newCalls
              (Sample.resolvedState (Sample.attributed "staging"))
              (Sample.vpcStage
                 2 (Sample.resolvedState (Sample.attributed "staging"))).2 →
          stackName = vpcStackName)
    ∧ (∀ stackName outcome,
          CallAwaitFinalStatus stackName outcome
          ∈ newCalls
              (Sample.resolvedState (Sample.attributed "staging"))
              (Sample.vpcStage
                 2 (Sample.resolvedState (Sample.attributed "staging"))).2 →
          stackName = vpcStackName)
    ∧ resolved
        (Sample.vpcStage
           2 (Sample.resolvedState (Sample.attributed "staging"))).2
      = Some (Sample.attributed "staging").
Proof.
  apply (@X15_network_references
           Sample.World "vpc" "target" Sample.CreateStackName
           Sample.createTagMap "mu" Sample.imageFinder Sample.stackUpserter
           (Sample.stackWaiter "CREATE_COMPLETE") (Sample.azCounter 2)
           (Sample.resolvedState (Sample.attributed "staging"))
           (Sample.attributed "staging")).
  - reflexivity.
  - vm_compute. reflexivity.
Defined.

Example X15_sample_references :
  elbStackParams
    (Sample.vpcStage
       2 (Sample.resolvedState (Sample.attributed "staging"))).2
  = {[ "VpcId" := "mu-target-staging-VpcId";
       "ElbSubnetIds" := "mu-target-staging-ElbSubnetIds" ]}.
Proof. vm_compute. reflexivity. Qed.

Example X17_sample_results :
  (Sample.upsertReliably [Sample.named "staging"] 2 "staging").1 = Ok tt
  ∧ (Sample.upsert [Sample.named "staging"] 1 "staging").1
    = Fail (Errorf "Only found 1 availability zones...need at least 2").
Proof. split; vm_compute; reflexivity. Qed.


Example X19_sample_order :
  submitted
    (calls (Sample.upsertReliably [Sample.attributed "staging"] 2
                                  "staging").2)
  = ["mu-target-staging"; "mu-loadbalancer-staging";
     "mu-environment-staging"]
  ∧ submitted
      (calls (Sample.upsertReliably
                [Sample.borrowing "staging" "shared"] 2 "staging").2)
    = ["mu-loadbalancer-staging"; "mu-environment-staging"].
Proof. split; vm_compute; reflexivity. Qed.

Example X21_sample_found :
  Faults.findGitDirectory 4 "/repo/src/main.go" = Some ("/repo/.git", None).
Proof. vm_compute. reflexivity. Qed.

Example X22_sample_errors :
  Faults.findGitDirectory 4 "/tmp/notes.txt"
  = Some ("", Some (Error "Unable to find git repo"))
  ∧ Faults.findGitDirectory 4 "/repo/README"
    = Some ("", Some (Error "stat /repo/README: no such file or directory")).
Proof. split; vm_compute; reflexivity. Qed.

Lemma X23_witness :
  Faults.findGitDirectory 1000 "notes.txt" = None.
Proof.
  apply (@X23_git_directory_search_loops
           Faults.os_Stat Faults.path_Dir Faults.path_Join "notes.txt" ".").
  - eapply rtc_l; [| apply rtc_refl].
    exists ".". repeat split; try reflexivity; discriminate.
  - reflexivity.
  - reflexivity.
  - discriminate.
  - discriminate.
Defined.
